(** * vaaradhi-backend: wallet ledger and payment confirmation

    A shallow embedding of the Express route handlers of [src/server.js]
    and of the second server file [src/unnamed/part_000], together with the
    part of JavaScript and of Mongoose that the handlers rely on.

    Conventions.
    - JavaScript numbers are modelled as the doubles that are integers
      ([Z]) plus [NaN].  A sum or a product is rounded to the nearest
      double, which leaves it as it is within 2^53 in magnitude; a number
      prints as its decimal numeral, which is what JavaScript prints for
      the safe integers (magnitude below 2^53).  Fractions, exponent
      notation and the infinities are outside the model.  A statement
      that rests on a sum, a product or a printed number of a request
      names the range it is made for among its hypotheses.  Clock
      readings are safe integers by what [Date.now()] returns.
    - A request body is a JSON object whose fields of interest hold JSON
      scalars (null, booleans, numbers, strings); a field that is absent
      destructures to [undefined].  Arrays and objects as field values,
      which Mongoose reads as lists of alternatives and as query
      operators, are outside the model: every statement about a request
      is a statement about a request with scalar fields.
    - [await] is modelled by sequencing: every handler is a function from
      the collection before the request to the response and the collection
      after it.  The storage layer itself never fails.
    - What a handler draws from its environment is an argument of it: [now]
      is what [Date.now()] returns, [oid] the [_id] a new document gets.
    - The form and authentication routes are modelled after the wallet
      and payment routes.  [models/User.js] is not among the sources: the
      schema of the [User] model is a parameter, and so are the functions
      of bcryptjs. *)

From Stdlib Require Import ZArith List String Ascii Bool Lia DecimalString.
From Stdlib Require Import DecimalZ DecimalPos Permutation.
Import ListNotations.
Set Warnings "-register-all".
Open Scope string_scope.
Open Scope Z_scope.

(** ** JavaScript values and coercions *)

Module JS.

(** Runtime values.  [VArr] and [VObj] are array and object literals. *)
Inductive jsval : Type :=
| VUndef
| VNull
| VBool (b : bool)
| VNum (z : Z)
| VNaN
| VStr (s : string)
| VArr (l : list jsval)
| VObj (o : list (string * jsval)).

(** JSON scalars, the values a request field carries in the model.  A
    number is an integer; [JNum z] is the number a request delivers when
    [z] is a double, as every integer up to 2^53 in magnitude is. *)
Inductive json : Type :=
| JNull
| JBool (b : bool)
| JNum (z : Z)
| JStr (s : string).

Definition of_json (j : json) : jsval :=
  match j with
  | JNull => VNull
  | JBool b => VBool b
  | JNum z => VNum z
  | JStr s => VStr s
  end.

(** [const { f } = req.body]: an absent field is [undefined]. *)
Definition field (f : option json) : jsval :=
  match f with
  | None => VUndef
  | Some j => of_json j
  end.

(** [const { f = d } = req.body]: the default replaces [undefined] only. *)
Definition field_default (f : option json) (d : jsval) : jsval :=
  match field f with
  | VUndef => d
  | v => v
  end.

(** ToBoolean. *)
Definition truthy (v : jsval) : bool :=
  match v with
  | VUndef | VNull | VNaN => false
  | VBool b => b
  | VNum z => negb (z =? 0)
  | VStr s => negb (s =? "")%string
  | VArr _ | VObj _ => true
  end.

(** The [typeof] operator. *)
Definition typeof (v : jsval) : string :=
  match v with
  | VUndef => "undefined"
  | VNull => "object"
  | VBool _ => "boolean"
  | VNum _ | VNaN => "number"
  | VStr _ => "string"
  | VArr _ | VObj _ => "object"
  end.

(** Number::toString on an integer: its decimal numeral.  JavaScript
    prints the same for the safe integers (magnitude below 2^53); beyond
    them it prints the shortest numeral that reads back as the same
    double, in exponent notation from 10^21 on. *)
Definition number_to_string (z : Z) : string :=
  NilZero.string_of_int (Z.to_int z).

(** ToString.  An array joins its elements with commas, [null] and
    [undefined] elements printing as the empty string; a plain object
    prints as [[object Object]]. *)
Fixpoint to_string (v : jsval) : string :=
  match v with
  | VUndef => "undefined"
  | VNull => "null"
  | VBool true => "true"
  | VBool false => "false"
  | VNum z => number_to_string z
  | VNaN => "NaN"
  | VStr s => s
  | VArr l =>
      (fix join (l : list jsval) : string :=
         match l with
         | [] => ""
         | x :: r =>
             let e := match x with
                      | VUndef | VNull => ""
                      | _ => to_string x
                      end in
             match r with
             | [] => e
             | _ => e ++ "," ++ join r
             end
         end) l
  | VObj _ => "[object Object]"
  end.

(** ToPrimitive yields a string for arrays and objects. *)
Definition to_primitive (v : jsval) : jsval :=
  match v with
  | VArr _ | VObj _ => VStr (to_string v)
  | _ => v
  end.

Definition is_string (v : jsval) : bool :=
  match v with VStr _ => true | _ => false end.

(** The double nearest to an integer, ties going to the even significand
    of 53 bits: what JavaScript keeps of an integer sum or product.  The
    integers up to 2^53 in magnitude are doubles themselves.  Beyond the
    largest double JavaScript yields an infinity, which the model does
    not have. *)
Definition to_double (z : Z) : Z :=
  let a := Z.abs z in
  if a <=? 9007199254740992 then z
  else
    let e := Z.log2 a - 52 in
    let q := Z.shiftr a e in
    let r := a - Z.shiftl q e in
    let half := Z.shiftl 1 (e - 1) in
    let q' := if (half <? r) || ((r =? half) && Z.odd q) then q + 1 else q in
    Z.sgn z * Z.shiftl q' e.

(** ToNumber of a primitive value that is not a string. *)
Definition number_of_primitive (v : jsval) : jsval :=
  match v with
  | VUndef => VNaN
  | VNull => VNum 0
  | VBool true => VNum 1
  | VBool false => VNum 0
  | VNum z => VNum z
  | _ => VNaN
  end.

Section StringToNumber.

(** StringToNumber of the language, on the integers of the model:
    the result is a [VNum] or [VNaN]. *)
Variable StringToNumber : string -> jsval.

(** ToNumber. *)
Definition to_number (v : jsval) : jsval :=
  match to_primitive v with
  | VStr s => StringToNumber s
  | p => number_of_primitive p
  end.

(** [a * b]: the product, rounded to a double. *)
Definition mul (a b : jsval) : jsval :=
  match to_number a, to_number b with
  | VNum x, VNum y => VNum (to_double (x * y))
  | _, _ => VNaN
  end.

End StringToNumber.

(** [a + b]: concatenation when either operand is a string after
    ToPrimitive, numeric addition otherwise; the sum is rounded to a
    double. *)
Definition add (a b : jsval) : jsval :=
  let pa := to_primitive a in
  let pb := to_primitive b in
  if is_string pa || is_string pb
  then VStr (to_string pa ++ to_string pb)
  else match number_of_primitive pa, number_of_primitive pb with
       | VNum x, VNum y => VNum (to_double (x + y))
       | _, _ => VNaN
       end.

(** [a || b]. *)
Definition logical_or (a b : jsval) : jsval := if truthy a then a else b.

(** [v >= 0] for a value whose [typeof] is ["number"]. *)
Definition ge0 (v : jsval) : bool :=
  match v with
  | VNum z => 0 <=? z
  | _ => false
  end.

(** [a !== b] between a string and an arbitrary value. *)
Definition strict_neq_string (a : string) (b : jsval) : bool :=
  match b with
  | VStr s => negb (a =? s)%string
  | _ => true
  end.

(** Property lookup in an object literal; a missing key is [undefined]. *)
Fixpoint prop (o : list (string * jsval)) (k : string) : jsval :=
  match o with
  | [] => VUndef
  | (k', v) :: r => if (k =? k')%string then v else prop r k
  end.

Definition get (v : jsval) (k : string) : jsval :=
  match v with
  | VObj o => prop o k
  | _ => VUndef
  end.

End JS.

(** ** Mongoose: schemas, documents and the collection

    What the handlers use of Mongoose, for a model compiled from a schema
    with the default options.  In particular the schema is strict (the
    default): a key that the schema does not declare is ignored by the
    model constructor, has no accessor on the document, and is never
    written by [save]; assigning such a key on a document only creates a
    plain property of that JavaScript object. *)

Module Mongoose.
Import JS.

Inductive SchemaType : Type := SString | SNumber | SDate.

Inductive PathDefault : Type :=
| NoDefault
| DefaultValue (v : jsval)
| DefaultNow.

Record SchemaPath : Type := mkPath {
  path_type : SchemaType;
  path_default : PathDefault
}.

Definition Schema : Type := list (string * SchemaPath).

Fixpoint schema_path (sch : Schema) (k : string) : option SchemaPath :=
  match sch with
  | [] => None
  | (k', p) :: r => if (k =? k')%string then Some p else schema_path r k
  end.

Definition declared (sch : Schema) (k : string) : bool :=
  match schema_path sch k with Some _ => true | None => false end.

(** Errors a handler can catch. *)
Inductive Error : Type :=
| CastError (path : string)
| ValidationError
| TypeError
| GatewayFailure (message : string).

Section Casting.

Variable StringToNumber : string -> jsval.

(** Cast to a String path: [null] and [undefined] pass through, strings are
    kept, numbers and booleans are printed, arrays and plain objects are
    refused. *)
Definition cast_string (v : jsval) : option jsval :=
  match v with
  | VUndef | VNull | VStr _ => Some v
  | VBool _ | VNum _ | VNaN => Some (VStr (to_string v))
  | VArr _ | VObj _ => None
  end.

(** Cast to a Number path: [null] and [undefined] pass through, the empty
    string becomes [null], strings and booleans go through [Number(...)],
    and [NaN] is refused.  Arrays and objects never reach a Number path in
    this program and are refused here. *)
Definition cast_number (v : jsval) : option jsval :=
  match v with
  | VUndef | VNull => Some v
  | VNum z => Some (VNum z)
  | VNaN => None
  | VStr s =>
      if (s =? "")%string then Some VNull
      else match StringToNumber s with
           | VNum z => Some (VNum z)
           | _ => None
           end
  | VBool b => Some (VNum (if b then 1 else 0))
  | VArr _ | VObj _ => None
  end.

(** Cast to a Date path.  Dates are kept as millisecond timestamps; the
    handlers never supply one, the path is filled by its default. *)
Definition cast_date (v : jsval) : option jsval :=
  match v with
  | VUndef | VNull => Some v
  | VNum z => Some (VNum z)
  | _ => None
  end.

Definition cast (t : SchemaType) (v : jsval) : option jsval :=
  match t with
  | SString => cast_string v
  | SNumber => cast_number v
  | SDate => cast_date v
  end.

(** A document in memory: the values of its schema paths, the schema paths
    modified since it was loaded, whether a cast failed (validation then
    fails at [save]), and the plain properties assigned on the object under
    keys the schema does not declare. *)
Record Document : Type := mkDoc {
  doc_id : nat;
  doc_isNew : bool;
  doc_paths : list (string * jsval);
  doc_modified : list string;
  doc_invalid : bool;
  doc_own : list (string * jsval)
}.

(** A document as stored in the collection. *)
Record Stored : Type := mkStored {
  st_id : nat;
  st_paths : list (string * jsval)
}.

Definition Collection : Type := list Stored.

Definition apply_default (now : Z) (d : PathDefault) : jsval :=
  match d with
  | NoDefault => VUndef
  | DefaultValue v => v
  | DefaultNow => VNum now
  end.

(** The value a schema path takes at construction, and whether its cast
    succeeded. *)
Definition init_path (now : Z) (obj : list (string * jsval))
  (k : string) (p : SchemaPath) : jsval * bool :=
  match prop obj k with
  | VUndef => (apply_default now (path_default p), true)
  | v => match cast (path_type p) v with
         | Some c => (c, true)
         | None => (VUndef, false)
         end
  end.

(** [new Model(obj)]: only the paths of the schema are taken from [obj];
    every other key of [obj] is dropped. *)
Definition Model_new (sch : Schema) (now : Z) (oid : nat)
  (obj : list (string * jsval)) : Document :=
  {| doc_id := oid;
     doc_isNew := true;
     doc_paths := map (fun kp => (fst kp, fst (init_path now obj (fst kp) (snd kp)))) sch;
     doc_modified := [];
     doc_invalid :=
       negb (forallb (fun kp => snd (init_path now obj (fst kp) (snd kp))) sch);
     doc_own := [] |}.

Fixpoint assign (o : list (string * jsval)) (k : string) (v : jsval)
  : list (string * jsval) :=
  match o with
  | [] => [(k, v)]
  | (k', v') :: r =>
      if (k =? k')%string then (k, v) :: r else (k', v') :: assign r k v
  end.

(** [doc.k]: the accessor of a schema path, or else a plain property. *)
Definition doc_get (sch : Schema) (d : Document) (k : string) : jsval :=
  if declared sch k then prop (doc_paths d) k else prop (doc_own d) k.

(** [doc.k = v]. *)
Definition doc_set (sch : Schema) (d : Document) (k : string) (v : jsval)
  : Document :=
  match schema_path sch k with
  | Some p =>
      match cast (path_type p) v with
      | Some c =>
          {| doc_id := doc_id d; doc_isNew := doc_isNew d;
             doc_paths := assign (doc_paths d) k c;
             doc_modified := k :: doc_modified d;
             doc_invalid := doc_invalid d;
             doc_own := doc_own d |}
      | None =>
          {| doc_id := doc_id d; doc_isNew := doc_isNew d;
             doc_paths := doc_paths d;
             doc_modified := doc_modified d;
             doc_invalid := true;
             doc_own := doc_own d |}
      end
  | None =>
      {| doc_id := doc_id d; doc_isNew := doc_isNew d;
         doc_paths := doc_paths d;
         doc_modified := doc_modified d;
         doc_invalid := doc_invalid d;
         doc_own := assign (doc_own d) k v |}
  end.

(** A document loaded from the collection.  A stored document is taken
    to hold every path of its schema, as the documents the routes write
    do: no default is filled in on load. *)
Definition hydrate (s : Stored) : Document :=
  {| doc_id := st_id s; doc_isNew := false; doc_paths := st_paths s;
     doc_modified := []; doc_invalid := false; doc_own := [] |}.

(** Equality of a stored scalar with a query value. *)
Definition scalar_eqb (a b : jsval) : bool :=
  match a, b with
  | VUndef, VUndef | VNull, VNull | VUndef, VNull | VNull, VUndef => true
  | VBool x, VBool y => Bool.eqb x y
  | VNum x, VNum y => (x =? y)
  | VStr x, VStr y => (x =? y)%string
  | _, _ => false
  end.

Definition matches (k : string) (q : jsval) (s : Stored) : bool :=
  scalar_eqb (prop (st_paths s) k) q.

(** [Model.find({k: v})] for a query value that is a primitive, as the
    scalar fields of a request and the route parameters are: the query
    value is cast like the path; a key the schema does not declare is
    compared as it is.  An array or an object as query value is refused
    here, where Mongoose reads it as a list of alternatives or as query
    operators; no request of the model leads there. *)
Definition find (sch : Schema) (c : Collection) (k : string) (v : jsval)
  : Error + list Document :=
  match schema_path sch k with
  | Some p =>
      match cast (path_type p) v with
      | Some q => inr (map hydrate (filter (matches k q) c))
      | None => inl (CastError k)
      end
  | None => inr (map hydrate (filter (matches k v) c))
  end.

(** [Model.findOne({k: v})]: the first match, or [null]. *)
Definition findOne (sch : Schema) (c : Collection) (k : string) (v : jsval)
  : Error + option Document :=
  match find sch c k v with
  | inl e => inl e
  | inr l => inr (head l)
  end.

Fixpoint set_paths (ks : list string) (from into : list (string * jsval))
  : list (string * jsval) :=
  match ks with
  | [] => into
  | k :: r => assign (set_paths r from into) k (prop from k)
  end.

(** [doc.save()]: validation fails when a cast failed; a new document is
    inserted with its schema paths; a loaded one has its modified schema
    paths written to the stored document of the same [_id]. *)
Definition save (c : Collection) (d : Document) : Error + Collection :=
  if doc_invalid d then inl ValidationError
  else if doc_isNew d
  then inr (c ++ [ {| st_id := doc_id d; st_paths := doc_paths d |} ])%list
  else inr (map (fun s =>
                   if Nat.eqb (st_id s) (doc_id d)
                   then {| st_id := st_id s;
                           st_paths := set_paths (doc_modified d) (doc_paths d) (st_paths s) |}
                   else s) c).

End Casting.

End Mongoose.

(** ** What the two server files share

    [src/server.js] and [src/unnamed/part_000] declare the same wallet
    schema (lines 35-41 of both) and the same payment routes (lines
    124-168 of both). *)

Module Shared.
Import JS Mongoose.

(** [walletSchema]: userId, points, rupees and date. *)
Definition walletSchema : Schema :=
  [ ("userId", mkPath SString NoDefault);
    ("points", mkPath SNumber (DefaultValue (VNum 0)));
    ("rupees", mkPath SNumber (DefaultValue (VNum 0)));
    ("date", mkPath SDate DefaultNow) ].

(** What a handler sends.  [Json s b] is [res.status(s).json(b)], with
    status 200 when the handler sets none.  [Caught e] is the [catch]
    block: status 500 and an object with [success: false] and the text of
    the error. *)
Inductive Response : Type :=
| Json (status : nat) (body : jsval)
| Caught (e : Error).

Definition status_of (r : Response) : nat :=
  match r with
  | Json s _ => s
  | Caught _ => 500%nat
  end.

Definition body_of (r : Response) : jsval :=
  match r with
  | Json _ b => b
  | Caught _ => VUndef
  end.

(** Sequencing inside [try { ... }]: the first error ends the block. *)
Definition bind {A B : Type} (x : Error + A) (k : A -> Error + B) : Error + B :=
  match x with
  | inl e => inl e
  | inr a => k a
  end.

Notation "x <- e ;; k" := (bind e (fun x => k))
  (at level 61, e at next level, right associativity).

(** Body of POST /api/payment/order. *)
Record OrderBody : Type := mkOrderBody {
  amount : option json
}.

(** The options handed to [razorpay.orders.create]. *)
Record OrderOptions : Type := mkOptions {
  opt_amount : jsval;
  opt_currency : string;
  opt_receipt : jsval
}.

(** Body of POST /api/payment/verify. *)
Record VerifyBody : Type := mkVerifyBody {
  razorpay_order_id : option json;
  razorpay_payment_id : option json;
  razorpay_signature : option json
}.

(** Body of POST /api/wallet/add. *)
Record AddBody : Type := mkAddBody {
  userId : option json;
  points : option json;
  rupees : option json;
  note : option json
}.

Section PaymentRoutes.

Variable StringToNumber : string -> jsval.

(** The payment gateway: [razorpay.orders.create(options)] resolves to an
    order or rejects with a message. *)
Variable orders_create : OrderOptions -> string + jsval.

(** [crypto.createHmac("sha256", key).update(data).digest("hex")]. *)
Variable hmac_sha256_hex : string -> string -> string.

(** POST /api/payment/order (lines 124-144).  The second component lists
    the orders submitted to the gateway while serving the request. *)
Definition payment_order (now : Z) (b : OrderBody)
  : Response * list OrderOptions :=
  let amount := field (amount b) in
  if negb (truthy amount)
  then (Json 400 (VObj [("success", VBool false);
                        ("message", VStr "Amount is required")]), [])
  else
    let options :=
      {| opt_amount := mul StringToNumber amount (VNum 100);
         opt_currency := "INR";
         opt_receipt := add (VStr "rcpt_") (VNum now) |} in
    match orders_create options with
    | inr order =>
        (Json 200 (VObj [("success", VBool true); ("order", order)]), [options])
    | inl msg => (Caught (GatewayFailure msg), [options])
    end.

(** POST /api/payment/verify (lines 147-168).  [secret] is
    [process.env.RAZORPAY_KEY_SECRET]; [createHmac] throws when it is not
    set. *)
Definition payment_verify (secret : option string) (b : VerifyBody) : Response :=
  let razorpay_order_id := field (razorpay_order_id b) in
  let razorpay_payment_id := field (razorpay_payment_id b) in
  let razorpay_signature := field (razorpay_signature b) in
  match secret with
  | None => Caught TypeError
  | Some key =>
      let sign :=
        hmac_sha256_hex key
          (to_string (add (add razorpay_order_id (VStr "|")) razorpay_payment_id)) in
      if strict_neq_string sign razorpay_signature
      then Json 400 (VObj [("success", VBool false);
                           ("message", VStr "Invalid signature")])
      else Json 200 (VObj [("success", VBool true)])
  end.

End PaymentRoutes.

End Shared.

(** ** The wallet routes of [src/server.js]

    One wallet document per event; the balance is the sum over the
    documents of the user. *)

Module ServerJs.
Import JS Mongoose Shared.

Section WalletRoutes.

Variable StringToNumber : string -> jsval.

(** POST /api/wallet/add (lines 175-191).  The response carries the saved
    document, rendered here by its schema paths. *)
Definition wallet_add (now : Z) (oid : nat) (b : AddBody) (c : Collection)
  : Response * Collection :=
  let userId := field (userId b) in
  let points := field (points b) in
  let rupees := field (rupees b) in
  if negb (truthy userId) || negb (truthy points) || negb (truthy rupees)
  then (Json 400 (VObj [("success", VBool false);
                        ("message", VStr "Missing required fields")]), c)
  else
    let wallet :=
      Model_new StringToNumber walletSchema now oid
        [("userId", userId); ("points", points); ("rupees", rupees)] in
    match save c wallet with
    | inr c' =>
        (Json 200 (VObj [("success", VBool true);
                         ("message", VStr "Wallet updated successfully");
                         ("wallet", VObj (doc_paths wallet))]), c')
    | inl e => (Caught e, c)
    end.

Definition date_of (d : Document) : Z :=
  match doc_get walletSchema d "date" with
  | VNum z => z
  | _ => 0
  end.

Fixpoint insert_desc (d : Document) (l : list Document) : list Document :=
  match l with
  | [] => [d]
  | x :: r => if date_of x <? date_of d then d :: l else x :: insert_desc d r
  end.

(** [.sort({ date: -1 })]: newest first. *)
Definition sort_date_desc (l : list Document) : list Document :=
  fold_right insert_desc [] l.

(** GET /api/wallet/balance/:userId (lines 194-205). *)
Definition wallet_balance (userId : string) (c : Collection) : Response :=
  match
    walletData <- find StringToNumber walletSchema c "userId" (VStr userId) ;;
    inr (sort_date_desc walletData)
  with
  | inr walletData =>
      let totalPoints :=
        fold_left (fun sum w => add sum (doc_get walletSchema w "points"))
                  walletData (VNum 0) in
      let totalRupees :=
        fold_left (fun sum w => add sum (doc_get walletSchema w "rupees"))
                  walletData (VNum 0) in
      Json 200 (VObj [("success", VBool true);
                      ("totalPoints", totalPoints);
                      ("totalRupees", totalRupees)])
  | inl e => Caught e
  end.

End WalletRoutes.

End ServerJs.

(** ** The wallet routes of [src/unnamed/part_000]

    One wallet document per user, meant to carry running totals and a
    transaction list.  The model is still compiled from [walletSchema],
    which declares none of [totalPoints], [totalRupees], [transactions]. *)

Module Part000.
Import JS Mongoose Shared.

(** The transaction literal of lines 194-199 and 208-213. *)
Definition transaction (points rupees note : jsval) : jsval :=
  VObj [ ("points", points);
         ("rupees", rupees);
         ("type", VStr (if ge0 points then "credit" else "debit"));
         ("note", note) ].

(** [arr.push(x)]; a [TypeError] when [arr] is not an array. *)
Definition push (arr x : jsval) : Error + jsval :=
  match arr with
  | VArr l => inr (VArr (l ++ [x])%list)
  | _ => inl TypeError
  end.

(** The object handed to [new Wallet] at lines 189-201. *)
Definition wallet_literal (userId points rupees note : jsval)
  : list (string * jsval) :=
  [ ("userId", userId);
    ("totalPoints", points);
    ("totalRupees", rupees);
    ("transactions", VArr [transaction points rupees note]) ].

Section WalletRoutes.

Variable StringToNumber : string -> jsval.

Definition Wallet_new := Model_new StringToNumber walletSchema.
Definition Wallet_findOne := findOne StringToNumber walletSchema.
Definition wget := doc_get walletSchema.
Definition wset := doc_set StringToNumber walletSchema.

(** Lines 185-214: the wallet object the handler holds when it calls
    [save], from what [findOne] returned. *)
Definition updated_wallet (now : Z) (oid : nat)
  (userId points rupees note : jsval) (found : option Document)
  : Error + Document :=
  match found with
  | None => inr (Wallet_new now oid (wallet_literal userId points rupees note))
  | Some wallet =>
      let wallet :=
        if negb (truthy (wget wallet "transactions"))
        then wset wallet "transactions" (VArr [])
        else wallet in
      let wallet := wset wallet "totalPoints" (add (wget wallet "totalPoints") points) in
      let wallet := wset wallet "totalRupees" (add (wget wallet "totalRupees") rupees) in
      transactions <- push (wget wallet "transactions") (transaction points rupees note) ;;
      inr (wset wallet "transactions" transactions)
  end.

(** The success response of lines 218-228. *)
Definition add_response (points : jsval) (wallet : Document) : Response :=
  Json 200
    (VObj [ ("success", VBool true);
            ("message", VStr (if ge0 points
                              then "Wallet credited successfully"
                              else "Wallet debited successfully"));
            ("balance", VObj [ ("totalPoints", wget wallet "totalPoints");
                               ("totalRupees", wget wallet "totalRupees") ]) ]).

(** POST /api/wallet/add (lines 174-235). *)
Definition wallet_add (now : Z) (oid : nat) (b : AddBody) (c : Collection)
  : Response * Collection :=
  let userId := field (userId b) in
  let points := field (points b) in
  let rupees := field_default (rupees b) (VNum 0) in
  let note := field_default (note b) (VStr "") in
  if negb (truthy userId) || negb (typeof points =? "number")%string
  then (Json 400 (VObj [("success", VBool false);
                        ("message", VStr "Missing or invalid fields (userId or points)")]), c)
  else
    match
      found <- Wallet_findOne c "userId" userId ;;
      wallet <- updated_wallet now oid userId points rupees note found ;;
      c' <- save c wallet ;;
      inr (add_response points wallet, c')
    with
    | inr out => out
    | inl e => (Caught e, c)
    end.

(** GET /api/wallet/balance/:userId (lines 240-258). *)
Definition wallet_balance (userId : string) (c : Collection) : Response :=
  match Wallet_findOne c "userId" (VStr userId) with
  | inr None =>
      Json 200 (VObj [("success", VBool true);
                      ("totalPoints", VNum 0);
                      ("totalRupees", VNum 0)])
  | inr (Some wallet) =>
      Json 200 (VObj [("success", VBool true);
                      ("totalPoints", logical_or (wget wallet "totalPoints") (VNum 0));
                      ("totalRupees", logical_or (wget wallet "totalRupees") (VNum 0))])
  | inl e => Caught e
  end.

End WalletRoutes.

End Part000.

(** ** Requests in flight

    A handler gives up control at each [await].  POST /api/wallet/add of
    [src/unnamed/part_000] awaits twice: [Wallet.findOne] (line 185) and
    [wallet.save] (line 216).  Each of the two database operations is
    atomic; what other requests do between them is not constrained by the
    handler, which takes no lock and checks no version. *)

Module Interleaving.
Import JS Mongoose Shared Part000.

Inductive Request : Type :=
| Received (now : Z) (oid : nat) (b : AddBody)
| Loaded (points : jsval) (wallet : Document)
| Answered (r : Response).

Section Steps.

Variable StringToNumber : string -> jsval.

(** From the start of the handler to the [await] of [save]: validation,
    [findOne] on the collection as it is now, and the update of the wallet
    object in memory. *)
Definition load (now : Z) (oid : nat) (b : AddBody) (c : Collection) : Request :=
  let userId := field (userId b) in
  let points := field (points b) in
  let rupees := field_default (rupees b) (VNum 0) in
  let note := field_default (note b) (VStr "") in
  if negb (truthy userId) || negb (typeof points =? "number")%string
  then Answered
         (Json 400 (VObj [("success", VBool false);
                          ("message", VStr "Missing or invalid fields (userId or points)")]))
  else
    match
      found <- Wallet_findOne StringToNumber c "userId" userId ;;
      updated_wallet StringToNumber now oid userId points rupees note found
    with
    | inr wallet => Loaded points wallet
    | inl e => Answered (Caught e)
    end.

(** From [save], on the collection as it is now, to the response. *)
Definition store (points : jsval) (wallet : Document) (c : Collection)
  : Request * Collection :=
  match save c wallet with
  | inr c' => (Answered (add_response points wallet), c')
  | inl e => (Answered (Caught e), c)
  end.

(** One step of one request. *)
Definition step (r : Request) (c : Collection) : Request * Collection :=
  match r with
  | Received now oid b => (load now oid b c, c)
  | Loaded points wallet => store points wallet c
  | Answered r => (Answered r, c)
  end.

(** The server: the collection and the requests being served. *)
Record Server : Type := mkServer {
  wallets : Collection;
  requests : list Request
}.

Fixpoint replace (i : nat) (r : Request) (l : list Request) : list Request :=
  match l, i with
  | [], _ => []
  | _ :: t, O => r :: t
  | x :: t, S j => x :: replace j r t
  end.

(** The event loop resumes request [i]. *)
Definition resume (i : nat) (sv : Server) : Server :=
  match nth_error (requests sv) i with
  | None => sv
  | Some r =>
      let (r', c') := step r (wallets sv) in
      {| wallets := c'; requests := replace i r' (requests sv) |}
  end.

(** A schedule names the request resumed at each turn. *)
Definition run (schedule : list nat) (sv : Server) : Server :=
  fold_left (fun sv i => resume i sv) schedule sv.

(** Every request runs to its response before the next one starts. *)
Definition one_after_another (n : nat) : list nat :=
  flat_map (fun i => [i; i]) (seq 0 n).

End Steps.

End Interleaving.

(** ** Vocabulary of the statements *)

Module Ledger.
Import JS Mongoose Shared.

(** The wallet documents of a user in the collection. *)
Definition wallets_of (u : string) (c : Collection) : list Stored :=
  filter (matches "userId" (VStr u)) c.

(** No wallet account exists for the user. *)
Definition no_account (u : string) (c : Collection) : Prop :=
  wallets_of u c = [].

(** The body of [credit(userID, points, rupees, note)] and of
    [debit(userID, points, rupees, note)]. *)
Definition transaction_body (u : string) (points rupees : Z) (note : string)
  : AddBody :=
  {| userId := Some (JStr u);
     points := Some (JNum points);
     rupees := Some (JNum rupees);
     note := Some (JStr note) |}.

(** The balance a response reports. *)
Definition balance (totalPoints totalRupees : jsval) : Response :=
  Json 200 (VObj [("success", VBool true);
                  ("totalPoints", totalPoints);
                  ("totalRupees", totalRupees)]).

(** The only shape of wallet document the strict model can store for a
    request of [src/unnamed/part_000]. *)
Definition bare_wallet (oid : nat) (userId : jsval) (now : Z) : Stored :=
  {| st_id := oid;
     st_paths := [ ("userId", VStr (to_string userId));
                   ("points", VNum 0);
                   ("rupees", VNum 0);
                   ("date", VNum now) ] |}.

(** The signed message of a payment confirmation. *)
Definition signed_message (b : VerifyBody) : string :=
  to_string (field (razorpay_order_id b)) ++ "|"
  ++ to_string (field (razorpay_payment_id b)).

(** One call of [applyTransaction] for a given user: the clock and the
    [_id] the server draws for it, and the deltas and the note it carries. *)
Record Call : Type := mkCall {
  call_now : Z;
  call_oid : nat;
  call_points : Z;
  call_rupees : Z;
  call_note : string
}.

Definition call_body (u : string) (k : Call) : AddBody :=
  transaction_body u (call_points k) (call_rupees k) (call_note k).

(** [credit(userID, 1, 0, "")]. *)
Definition unit_credit (stamp : Z * nat) : Call :=
  {| call_now := fst stamp; call_oid := snd stamp;
     call_points := 1; call_rupees := 0; call_note := "" |}.

(** The calls as requests that have just arrived. *)
Definition arrivals (u : string) (calls : list Call) : list Interleaving.Request :=
  map (fun k => Interleaving.Received (call_now k) (call_oid k) (call_body u k)) calls.

Section Sequences.

Variable StringToNumber : string -> jsval.

(** The collection after serving the calls in order, each to its end,
    with the handler of [src/unnamed/part_000]. *)
Definition apply_all (u : string) (calls : list Call) (c : Collection)
  : Collection :=
  fold_left
    (fun c k =>
       snd (Part000.wallet_add StringToNumber (call_now k) (call_oid k) (call_body u k) c))
    calls c.

End Sequences.

(** The success response of POST /api/wallet/add of
    [src/unnamed/part_000] with the given balance. *)
Definition accepted_response (points totalPoints totalRupees : jsval) : Response :=
  Json 200
    (VObj [ ("success", VBool true);
            ("message", VStr (if ge0 points
                              then "Wallet credited successfully"
                              else "Wallet debited successfully"));
            ("balance", VObj [ ("totalPoints", totalPoints);
                               ("totalRupees", totalRupees) ]) ]).

(** The 400 responses. *)
Definition invalid_fields : Response :=
  Json 400 (VObj [("success", VBool false);
                  ("message", VStr "Missing or invalid fields (userId or points)")]).

Definition missing_fields : Response :=
  Json 400 (VObj [("success", VBool false);
                  ("message", VStr "Missing required fields")]).

Definition amount_required : Response :=
  Json 400 (VObj [("success", VBool false);
                  ("message", VStr "Amount is required")]).

Definition invalid_signature : Response :=
  Json 400 (VObj [("success", VBool false);
                  ("message", VStr "Invalid signature")]).

Definition verified : Response :=
  Json 200 (VObj [("success", VBool true)]).

(** A StringToNumber for the examples: plain decimal numerals, the empty
    string as 0, anything else as [NaN]. *)
Definition digit_of (a : ascii) : option Z :=
  let n := Z.of_nat (nat_of_ascii a) in
  if (48 <=? n) && (n <=? 57) then Some (n - 48) else None.

Fixpoint digits (acc : Z) (s : string) : option Z :=
  match s with
  | EmptyString => Some acc
  | String a r =>
      match digit_of a with
      | Some d => digits (10 * acc + d) r
      | None => None
      end
  end.

Definition decimal (s : string) : jsval :=
  match digits 0 s with
  | Some z => VNum z
  | None => VNaN
  end.

(** The options of an order for a numeric amount [z] created at [now]. *)
Definition order_options (now : Z) (z : Z) : OrderOptions :=
  {| opt_amount := VNum (z * 100);
     opt_currency := "INR";
     opt_receipt := VStr ("rcpt_" ++ number_to_string now) |}.

(** A gateway for the examples: it accepts every order and echoes the
    amount. *)
Definition echo_gateway (o : OrderOptions) : string + jsval :=
  inr (VObj [("amount", opt_amount o)]).

(** The range in which JavaScript computes with integers exactly: every
    integer up to 2^53 in magnitude is a double, so a sum or a product of
    integers that stays in the range is not rounded. *)
Definition in_exact_range (z : Z) : Prop := Z.abs z <= 9007199254740992.

(** [Number.isSafeInteger]: magnitude below 2^53.  A safe integer prints
    as its decimal numeral. *)
Definition safe_integer (z : Z) : bool := Z.abs z <=? 9007199254740991.

(** A request field that JavaScript prints as the model does: anything
    but a number beyond the safe integers. *)
Definition prints_plainly (f : option json) : bool :=
  match f with
  | Some (JNum z) => safe_integer z
  | _ => true
  end.

End Ledger.

(** ** The form route (the same in both server files)

    POST /api/form/submit: lines 210-230 of [src/server.js], lines 265-285
    of [src/unnamed/part_000]; [formSchema]: lines 43-52 of both. *)

Module Forms.
Import JS Mongoose Shared.

(** [formSchema]: six strings and the date. *)
Definition formSchema : Schema :=
  [ ("name", mkPath SString NoDefault);
    ("mobile", mkPath SString NoDefault);
    ("email", mkPath SString NoDefault);
    ("pan", mkPath SString NoDefault);
    ("aadhaar", mkPath SString NoDefault);
    ("formType", mkPath SString NoDefault);
    ("date", mkPath SDate DefaultNow) ].

(** Body of POST /api/form/submit. *)
Record FormBody : Type := mkFormBody {
  name : option json;
  mobile : option json;
  email : option json;
  pan : option json;
  aadhaar : option json;
  formType : option json
}.

Section FormRoutes.

Variable StringToNumber : string -> jsval.

(** POST /api/form/submit.  The message is the template literal
    [`${formType} form submitted successfully`]; the response carries the
    saved document, rendered here by its schema paths. *)
Definition form_submit (now : Z) (oid : nat) (b : FormBody) (forms : Collection)
  : Response * Collection :=
  let name := field (name b) in
  let mobile := field (mobile b) in
  let email := field (email b) in
  let pan := field (pan b) in
  let aadhaar := field (aadhaar b) in
  let formType := field (formType b) in
  if negb (truthy name) || negb (truthy mobile) || negb (truthy email)
     || negb (truthy pan) || negb (truthy aadhaar)
  then (Json 400 (VObj [("success", VBool false);
                        ("message", VStr "Missing required fields")]), forms)
  else
    let form :=
      Model_new StringToNumber formSchema now oid
        [ ("name", name); ("mobile", mobile); ("email", email);
          ("pan", pan); ("aadhaar", aadhaar); ("formType", formType) ] in
    match save forms form with
    | inr forms' =>
        (Json 200
           (VObj [ ("success", VBool true);
                   ("message",
                    VStr (to_string formType ++ " form submitted successfully"));
                   ("form", VObj (doc_paths form)) ]),
         forms')
    | inl e => (Caught e, forms)
    end.

End FormRoutes.

End Forms.

(** ** The authentication routes (the same in both server files)

    POST /api/auth/register (lines 64-90) and POST /api/auth/login (lines
    92-117).  [models/User.js] is not among the sources: the schema of the
    [User] model is a parameter.  So are the two functions of bcryptjs;
    both refuse an argument that is not a string. *)

Module Auth.
Import JS Mongoose Shared.

(** Body of both routes. *)
Record Credentials : Type := mkCredentials {
  email : option json;
  password : option json
}.

(** The string form of an [_id].  Ids are numbered in the model, and the
    string form of an id is its numeral. *)
Definition ObjectId_string (oid : nat) : string :=
  number_to_string (Z.of_nat oid).

(** [doc._id] where the handlers use it: cast to a String path and
    serialised into a response, an id gives its string form. *)
Definition doc__id (d : Document) : jsval := VStr (ObjectId_string (doc_id d)).

(** What an authentication handler sends: a response as for the other
    routes, or the [catch] block (status 500) after bcryptjs refused its
    arguments. *)
Inductive Reply : Type :=
| Answer (r : Response)
| IllegalArguments.

Definition reply_status (r : Reply) : nat :=
  match r with
  | Answer r => status_of r
  | IllegalArguments => 500%nat
  end.

(** The two collections the routes touch. *)
Record Database : Type := mkDatabase {
  users : Collection;
  wallets : Collection
}.

(** What POST /api/auth/register draws from its environment: the salt of
    [bcrypt.hash], and the [_id] and the clock of the two documents it
    builds. *)
Record Draw : Type := mkDraw {
  salt : string;
  user_oid : nat;
  user_now : Z;
  wallet_oid : nat;
  wallet_now : Z
}.

Section AuthRoutes.

Variable StringToNumber : string -> jsval.

(** The schema of [models/User.js]. *)
Variable userSchema : Schema.

(** [bcrypt.hash(password, 10)] with the salt it drew, and
    [bcrypt.compare(password, hash)]. *)
Variable bcrypt_hash : string -> string -> string.
Variable bcrypt_compare : string -> string -> bool.

(** POST /api/auth/register. *)
Definition register (env : Draw) (b : Credentials) (db : Database)
  : Reply * Database :=
  let email := field (email b) in
  let password := field (password b) in
  if negb (truthy email) || negb (truthy password)
  then (Answer (Json 400 (VObj [("success", VBool false);
                                ("message", VStr "Email and password required")])), db)
  else
    match findOne StringToNumber userSchema (users db) "email" email with
    | inl e => (Answer (Caught e), db)
    | inr (Some existingUser) =>
        (Answer (Json 400 (VObj [("success", VBool false);
                                 ("message", VStr "Email already registered")])), db)
    | inr None =>
        match password with
        | VStr s =>
            let hashed := VStr (bcrypt_hash s (salt env)) in
            let user :=
              Model_new StringToNumber userSchema (user_now env) (user_oid env)
                [("email", email); ("password", hashed)] in
            match save (users db) user with
            | inl e => (Answer (Caught e), db)
            | inr users' =>
                let wallet :=
                  Model_new StringToNumber walletSchema (wallet_now env) (wallet_oid env)
                    [("userId", doc__id user); ("points", VNum 0); ("rupees", VNum 0)] in
                match save (wallets db) wallet with
                | inl e =>
                    (Answer (Caught e), {| users := users'; wallets := wallets db |})
                | inr wallets' =>
                    (Answer (Json 200 (VObj [("success", VBool true);
                                             ("message", VStr "User registered successfully")])),
                     {| users := users'; wallets := wallets' |})
                end
            end
        | _ => (IllegalArguments, db)
        end
    end.

(** POST /api/auth/login. *)
Definition login (b : Credentials) (users : Collection) : Reply :=
  let email := field (email b) in
  let password := field (password b) in
  match findOne StringToNumber userSchema users "email" email with
  | inl e => Answer (Caught e)
  | inr None =>
      Answer (Json 400 (VObj [("success", VBool false);
                              ("message", VStr "Invalid email or password")]))
  | inr (Some user) =>
      match password, doc_get userSchema user "password" with
      | VStr s, VStr h =>
          if bcrypt_compare s h
          then Answer (Json 200 (VObj [ ("success", VBool true);
                                        ("message", VStr "Login successful");
                                        ("userId", doc__id user);
                                        ("email", doc_get userSchema user "email") ]))
          else Answer (Json 400 (VObj [("success", VBool false);
                                       ("message", VStr "Invalid email or password")]))
      | _, _ => IllegalArguments
      end
  end.

End AuthRoutes.

End Auth.

(** ** Vocabulary of the further statements *)

Module Events.
Import JS Mongoose Shared Ledger.

(** The number a stored wallet document holds under a path. *)
Definition number_at (k : string) (s : Stored) : Z :=
  match prop (st_paths s) k with
  | VNum z => z
  | _ => 0
  end.

(** The sum of a path over the wallet documents of a user. *)
Definition total (k : string) (u : string) (c : Collection) : Z :=
  fold_right (fun s acc => number_at k s + acc) 0 (wallets_of u c).

(** A wallet document whose points and rupees are numbers. *)
Definition numeric (s : Stored) : bool :=
  match prop (st_paths s) "points", prop (st_paths s) "rupees" with
  | VNum _, VNum _ => true
  | _, _ => false
  end.

Definition numeric_ledger (c : Collection) : Prop :=
  forallb numeric c = true.

(** One transaction sent to POST /api/wallet/add of [src/server.js], with
    the clock and the [_id] the server draws for it. *)
Record Event : Type := mkEvent {
  ev_now : Z;
  ev_oid : nat;
  ev_user : string;
  ev_points : Z;
  ev_rupees : Z
}.

Definition event_body (e : Event) : AddBody :=
  {| userId := Some (JStr (ev_user e));
     points := Some (JNum (ev_points e));
     rupees := Some (JNum (ev_rupees e));
     note := None |}.

(** The wallet document [src/server.js] stores for an event. *)
Definition event_wallet (e : Event) : Stored :=
  {| st_id := ev_oid e;
     st_paths := [ ("userId", VStr (ev_user e));
                   ("points", VNum (ev_points e));
                   ("rupees", VNum (ev_rupees e));
                   ("date", VNum (ev_now e)) ] |}.

(** What the guard of [src/server.js] lets through. *)
Definition passes (e : Event) : Prop :=
  ev_user e <> "" /\ ev_points e <> 0 /\ ev_rupees e <> 0.

(** The sum of a delta over the events of a user. *)
Definition delta (f : Event -> Z) (u : string) (events : list Event) : Z :=
  fold_right (fun e acc => (if (ev_user e =? u)%string then f e else 0) + acc) 0 events.

(** What a transaction carries of its own: the user, the points and the
    rupees.  The clock and the [_id] are drawn by the server when it
    serves the transaction. *)
Definition payload (e : Event) : string * (Z * Z) :=
  (ev_user e, (ev_points e, ev_rupees e)).

(** The magnitudes that a path holds over the wallet documents of a user,
    and those of a delta over the events of a user, added up. *)
Definition weight (k : string) (u : string) (c : Collection) : Z :=
  fold_right (fun s acc => Z.abs (number_at k s) + acc) 0 (wallets_of u c).

Definition spread (f : Event -> Z) (u : string) (events : list Event) : Z :=
  fold_right (fun e acc => (if (ev_user e =? u)%string then Z.abs (f e) else 0) + acc)
             0 events.

(** The points of a user, stored and arriving, add up to at most 2^53 in
    magnitude, and so do the rupees: whatever the order in which the
    balance route adds them, every sum it forms is in the exact range. *)
Definition sums_exactly (u : string) (events : list Event) (c : Collection) : Prop :=
  in_exact_range (weight "points" u c + spread ev_points u events)
  /\ in_exact_range (weight "rupees" u c + spread ev_rupees u events).

Section Serving.

Variable StringToNumber : string -> jsval.

(** The collection after serving the events in order with the handler of
    [src/server.js]. *)
Definition serve (events : list Event) (c : Collection) : Collection :=
  fold_left
    (fun c e =>
       snd (ServerJs.wallet_add StringToNumber (ev_now e) (ev_oid e) (event_body e) c))
    events c.

End Serving.

(** The number a loaded wallet document holds under a path, and its sum
    over a list of documents. *)
Definition doc_number (k : string) (d : Document) : Z :=
  match doc_get walletSchema d k with
  | VNum z => z
  | _ => 0
  end.

Definition doc_total (k : string) (l : list Document) : Z :=
  fold_right (fun d acc => doc_number k d + acc) 0 l.

Definition doc_weight (k : string) (l : list Document) : Z :=
  fold_right (fun d acc => Z.abs (doc_number k d) + acc) 0 l.

(** At most one wallet document per user. *)
Definition one_wallet_each (c : Collection) : Prop :=
  forall u : string, (List.length (wallets_of u c) <= 1)%nat.

(** The five required fields of a form are all given. *)
Definition form_complete (b : Forms.FormBody) : bool :=
  truthy (field (Forms.name b)) && truthy (field (Forms.mobile b))
  && truthy (field (Forms.email b)) && truthy (field (Forms.pan b))
  && truthy (field (Forms.aadhaar b)).

(** Every field of the form prints as in JavaScript. *)
Definition form_prints_plainly (b : Forms.FormBody) : bool :=
  prints_plainly (Forms.name b) && prints_plainly (Forms.mobile b)
  && prints_plainly (Forms.email b) && prints_plainly (Forms.pan b)
  && prints_plainly (Forms.aadhaar b) && prints_plainly (Forms.formType b).

(** The document stored for a form. *)
Definition stored_form (now : Z) (oid : nat) (b : Forms.FormBody) : Stored :=
  {| st_id := oid;
     st_paths :=
       [ ("name", VStr (to_string (field (Forms.name b))));
         ("mobile", VStr (to_string (field (Forms.mobile b))));
         ("email", VStr (to_string (field (Forms.email b))));
         ("pan", VStr (to_string (field (Forms.pan b))));
         ("aadhaar", VStr (to_string (field (Forms.aadhaar b))));
         ("formType", match field (Forms.formType b) with
                      | VUndef => VUndef
                      | VNull => VNull
                      | v => VStr (to_string v)
                      end);
         ("date", VNum now) ] |}.

(** The wallet POST /api/auth/register creates. *)
Definition empty_wallet (oid : nat) (user : nat) (now : Z) : Stored :=
  {| st_id := oid;
     st_paths := [ ("userId", VStr (Auth.ObjectId_string user));
                   ("points", VNum 0);
                   ("rupees", VNum 0);
                   ("date", VNum now) ] |}.

(** The 400 responses of the authentication routes. *)
Definition credentials_required : Response :=
  Json 400 (VObj [("success", VBool false);
                  ("message", VStr "Email and password required")]).

Definition already_registered : Response :=
  Json 400 (VObj [("success", VBool false);
                  ("message", VStr "Email already registered")]).

Definition invalid_credentials : Response :=
  Json 400 (VObj [("success", VBool false);
                  ("message", VStr "Invalid email or password")]).

(** The [User] schema of the examples: email and password, both strings. *)
Definition plain_userSchema : Schema :=
  [ ("email", mkPath SString NoDefault);
    ("password", mkPath SString NoDefault) ].

(** Stand-ins for bcryptjs in the examples: the hash is the password
    behind a mark, whatever the salt. *)
Definition toy_hash (password salt : string) : string :=
  String "#" password.

Definition toy_compare (password hash : string) : bool :=
  (hash =? String "#" password)%string.

(** What the statements about stored users ask of the [User] schema: it
    declares email and password, and declares them as strings. *)
Definition strings_declared (sch : Schema) : Prop :=
  declared sch "email" = true
  /\ declared sch "password" = true
  /\ forall k p, In (k, p) sch -> k = "email" \/ k = "password" ->
                 path_type p = SString.

(** The stored users with a given email. *)
Definition users_with (e : string) (users : Collection) : list Stored :=
  filter (matches "email" (VStr e)) users.

(** The credentials of a user, as a request body. *)
Definition credentials (e p : string) : Auth.Credentials :=
  {| Auth.email := Some (JStr e); Auth.password := Some (JStr p) |}.

(** The success response of POST /api/auth/login. *)
Definition logged_in (user : nat) (e : string) : Response :=
  Json 200 (VObj [ ("success", VBool true);
                   ("message", VStr "Login successful");
                   ("userId", VStr (Auth.ObjectId_string user));
                   ("email", VStr e) ]).

End Events.

(** * Properties *)

Import JS Mongoose Shared Ledger.

(** ** Numbers *)

(** Within 2^53 in magnitude nothing is rounded. *)
Lemma to_double_exact (z : Z) : in_exact_range z -> to_double z = z.
Proof.
  unfold in_exact_range, to_double. intros H.
  destruct (Z.leb_spec (Z.abs z) 9007199254740992) as [_ | L]; [reflexivity | lia].
Qed.

Lemma add_exact (x y : Z) :
  in_exact_range (x + y) -> add (VNum x) (VNum y) = VNum (x + y).
Proof.
  intros H. unfold add. cbn [to_primitive is_string orb number_of_primitive].
  rewrite (to_double_exact _ H). reflexivity.
Qed.

(** ** The wallet routes of [src/unnamed/part_000] on the strict model *)

Section Part000Facts.

Variable StringToNumber : string -> jsval.

Lemma truthy_nonempty (u : string) : u <> "" -> truthy (VStr u) = true.
Proof.
  intros H. simpl. destruct (String.eqb_spec u ""); [contradiction | reflexivity].
Qed.

Lemma cast_string_truthy_field (f : option json) :
  truthy (field f) = true ->
  cast_string (field f) = Some (VStr (to_string (field f))).
Proof.
  destruct f as [[ | b | z | s] | ]; simpl; try discriminate; reflexivity.
Qed.

Lemma findOne_userId (c : Collection) (v q : jsval) :
  cast_string v = Some q ->
  Part000.Wallet_findOne StringToNumber c "userId" v
  = inr (head (map hydrate (filter (matches "userId" q) c))).
Proof.
  intros H. unfold Part000.Wallet_findOne, findOne, find. simpl. rewrite H.
  reflexivity.
Qed.

(** Saving a loaded document none of whose schema paths was modified
    writes nothing. *)
Lemma save_untouched (c : Collection) (d : Document) :
  doc_invalid d = false -> doc_isNew d = false -> doc_modified d = [] ->
  save c d = inr c.
Proof.
  intros Hi Hn Hm. unfold save. rewrite Hi, Hn, Hm.
  assert (E : forall l : Collection,
             map (fun s => if Nat.eqb (st_id s) (doc_id d)
                           then {| st_id := st_id s;
                                   st_paths := set_paths [] (doc_paths d) (st_paths s) |}
                           else s) l = l).
  { induction l as [ | [i p] l IH]; cbn [map]; [reflexivity | ].
    rewrite IH. simpl. destruct (Nat.eqb i (doc_id d)); reflexivity. }
  rewrite E. reflexivity.
Qed.

(** On a loaded wallet the totals and the transaction list are plain
    properties of the object in memory: no schema path is touched. *)
Lemma updated_existing (now : Z) (oid : nat)
  (userId points rupees note : jsval) (s : Stored) :
  Part000.updated_wallet StringToNumber now oid userId points rupees note
    (Some (hydrate s))
  = inr {| doc_id := st_id s; doc_isNew := false; doc_paths := st_paths s;
           doc_modified := []; doc_invalid := false;
           doc_own := [ ("transactions", VArr [Part000.transaction points rupees note]);
                        ("totalPoints", add VUndef points);
                        ("totalRupees", add VUndef rupees) ] |}.
Proof. reflexivity. Qed.

Lemma wallet_add_rejected (now : Z) (oid : nat) (b : AddBody) (c : Collection) :
  truthy (field (userId b)) && (typeof (field (points b)) =? "number")%string = false ->
  Part000.wallet_add StringToNumber now oid b c = (invalid_fields, c).
Proof.
  intros H. unfold Part000.wallet_add.
  rewrite <- negb_andb, H. reflexivity.
Qed.

(** First accepted request of a user: the document that is inserted keeps
    none of what the request carried but the user id. *)
Lemma wallet_add_new (now : Z) (oid : nat) (b : AddBody) (c : Collection) :
  truthy (field (userId b)) = true ->
  typeof (field (points b)) = "number" ->
  no_account (to_string (field (userId b))) c ->
  Part000.wallet_add StringToNumber now oid b c
  = (accepted_response (field (points b)) VUndef VUndef,
     (c ++ [bare_wallet oid (field (userId b)) now])%list).
Proof.
  intros Hu Hp Hc. unfold Part000.wallet_add.
  rewrite Hu, Hp. cbn [negb orb String.eqb].
  rewrite (findOne_userId c _ _ (cast_string_truthy_field _ Hu)).
  unfold no_account, wallets_of in Hc. rewrite Hc. cbn [map head bind].
  unfold Part000.updated_wallet, Part000.Wallet_new, Model_new, Part000.wallet_literal.
  cbn [bind].
  destruct (userId b) as [[ | [ | ] | z | u] | ]; simpl in Hu;
    try discriminate; reflexivity.
Qed.

(** Later accepted requests of the user: nothing is written. *)
Lemma wallet_add_existing (now : Z) (oid : nat) (b : AddBody) (c : Collection)
  (s : Stored) (rest : list Stored) :
  truthy (field (userId b)) = true ->
  typeof (field (points b)) = "number" ->
  wallets_of (to_string (field (userId b))) c = s :: rest ->
  Part000.wallet_add StringToNumber now oid b c
  = (accepted_response (field (points b))
       (add VUndef (field (points b)))
       (add VUndef (field_default (rupees b) (VNum 0))),
     c).
Proof.
  intros Hu Hp Hc. unfold Part000.wallet_add.
  rewrite Hu, Hp. cbn [negb orb String.eqb].
  rewrite (findOne_userId c _ _ (cast_string_truthy_field _ Hu)).
  unfold wallets_of in Hc. rewrite Hc. cbn [map head bind].
  rewrite updated_existing. cbn [bind].
  rewrite save_untouched by reflexivity. reflexivity.
Qed.

(** The balance route reads [totalPoints] and [totalRupees], which no
    loaded wallet has. *)
Lemma balance_reads_zero (u : string) (c : Collection) :
  Part000.wallet_balance StringToNumber u c = balance (VNum 0) (VNum 0).
Proof.
  unfold Part000.wallet_balance.
  rewrite (findOne_userId c (VStr u) (VStr u)) by reflexivity.
  destruct (filter (matches "userId" (VStr u)) c) as [ | s l]; reflexivity.
Qed.

Lemma wallets_of_app (u : string) (c1 c2 : Collection) :
  wallets_of u (c1 ++ c2)%list = (wallets_of u c1 ++ wallets_of u c2)%list.
Proof. unfold wallets_of. apply filter_app. Qed.

Lemma wallets_of_bare (u : string) (oid : nat) (now : Z) :
  wallets_of u [bare_wallet oid (VStr u) now] = [bare_wallet oid (VStr u) now].
Proof.
  unfold wallets_of, matches. simpl. rewrite String.eqb_refl. reflexivity.
Qed.

(** A transaction for a user, by whether the user has a wallet. *)
Lemma transaction_new (now : Z) (oid : nat) (u : string) (points rupees : Z)
  (note : string) (c : Collection) :
  u <> "" -> no_account u c ->
  Part000.wallet_add StringToNumber now oid (transaction_body u points rupees note) c
  = (accepted_response (VNum points) VUndef VUndef,
     (c ++ [bare_wallet oid (VStr u) now])%list).
Proof.
  intros Hu Hc.
  apply (wallet_add_new now oid (transaction_body u points rupees note) c).
  - apply truthy_nonempty, Hu.
  - reflexivity.
  - exact Hc.
Qed.

Lemma transaction_existing (now : Z) (oid : nat) (u : string) (points rupees : Z)
  (note : string) (c : Collection) :
  u <> "" -> wallets_of u c <> [] ->
  Part000.wallet_add StringToNumber now oid (transaction_body u points rupees note) c
  = (accepted_response (VNum points) VNaN VNaN, c).
Proof.
  intros Hu Hc.
  destruct (wallets_of u c) as [ | s rest] eqn:E; [contradiction | ].
  apply (wallet_add_existing now oid (transaction_body u points rupees note) c s rest).
  - apply truthy_nonempty, Hu.
  - reflexivity.
  - exact E.
Qed.

Lemma apply_all_cons (u : string) (k : Call) (calls : list Call) (c : Collection) :
  apply_all StringToNumber u (k :: calls) c
  = apply_all StringToNumber u calls
      (snd (Part000.wallet_add StringToNumber (call_now k) (call_oid k)
              (transaction_body u (call_points k) (call_rupees k) (call_note k)) c)).
Proof. reflexivity. Qed.

Lemma apply_all_existing (u : string) (calls : list Call) (c : Collection) :
  u <> "" -> wallets_of u c <> [] ->
  apply_all StringToNumber u calls c = c.
Proof.
  intros Hu Hc. induction calls as [ | k calls IH]; [reflexivity | ].
  rewrite apply_all_cons, (transaction_existing _ _ u _ _ _ c Hu Hc). exact IH.
Qed.

Lemma apply_all_new (u : string) (k : Call) (calls : list Call) (c : Collection) :
  u <> "" -> no_account u c ->
  apply_all StringToNumber u (k :: calls) c
  = (c ++ [bare_wallet (call_oid k) (VStr u) (call_now k)])%list.
Proof.
  intros Hu Hc.
  rewrite apply_all_cons, (transaction_new _ _ u _ _ _ c Hu Hc). cbn [snd].
  apply (apply_all_existing u calls _ Hu).
  rewrite wallets_of_app, wallets_of_bare.
  intros E. apply app_eq_nil in E. destruct E as [_ E]. discriminate E.
Qed.

End Part000Facts.

(** ** Ledger claims on [src/unnamed/part_000] *)

Section LedgerClaims.

Variable StringToNumber : string -> jsval.

(** C1 (ledger aggregate invariant), evaluated on the code.  The claim
    says that after every call of a sequence that starts from no account,
    [totalPoints] is the sum of the points of the transaction list and
    [totalRupees] the sum of their rupees.  On the code, whatever the
    non-empty sequence of calls for a user without account, the collection
    ends with one more document, the bare wallet of the first call: user
    id, [points: 0], [rupees: 0] and the date.  It has no [totalPoints],
    no [totalRupees] and no [transactions], and the deltas of the calls
    are in none of its fields. *)
Theorem aggregate_never_stored (u : string) (k : Call) (calls : list Call)
  (c : Collection) :
  u <> "" -> no_account u c ->
  let account := bare_wallet (call_oid k) (VStr u) (call_now k) in
  apply_all StringToNumber u (k :: calls) c = (c ++ [account])%list
  /\ wallets_of u (apply_all StringToNumber u (k :: calls) c) = [account]
  /\ prop (st_paths account) "totalPoints" = VUndef
  /\ prop (st_paths account) "totalRupees" = VUndef
  /\ prop (st_paths account) "transactions" = VUndef
  /\ prop (st_paths account) "points" = VNum 0
  /\ prop (st_paths account) "rupees" = VNum 0.
Proof.
  intros Hu Hc account.
  rewrite (apply_all_new StringToNumber u k calls c Hu Hc).
  split; [reflexivity | ].
  split; [ | repeat split].
  rewrite wallets_of_app, wallets_of_bare.
  unfold no_account in Hc. rewrite Hc. reflexivity.
Qed.

(** C3 (round trip), evaluated on the code.  The claim says that
    [credit(userID, 100, 50, "test")] on a user without account followed by
    [getBalance(userID)] returns 100 points and 50 rupees.  On the code the
    credit is answered with status 200 and an undefined balance, and the
    balance read next is 0 points and 0 rupees. *)
Theorem credit_then_balance_reads_zero (now : Z) (oid : nat) (u : string)
  (c : Collection) :
  u <> "" -> no_account u c ->
  let served :=
    Part000.wallet_add StringToNumber now oid (transaction_body u 100 50 "test") c in
  fst served = accepted_response (VNum 100) VUndef VUndef
  /\ Part000.wallet_balance StringToNumber u (snd served)
     = balance (VNum 0) (VNum 0).
Proof.
  intros Hu Hc served. split.
  - unfold served.
    rewrite (transaction_new StringToNumber now oid u 100 50 "test" c Hu Hc).
    reflexivity.
  - apply balance_reads_zero.
Qed.

(** C10 (no minimum balance), evaluated on the code.  The claim says that
    a debit of any magnitude is accepted and applied, so that the totals
    can become arbitrarily negative.  On the code a debit is accepted in
    every state of the collection, with status 200 and the message of a
    debit, but it is not applied: the balance read next is 0 points and
    0 rupees. *)
Theorem debit_accepted_not_applied (now : Z) (oid : nat) (u : string)
  (points rupees : Z) (note : string) (c : Collection) :
  u <> "" -> points < 0 ->
  let served :=
    Part000.wallet_add StringToNumber now oid (transaction_body u points rupees note) c in
  status_of (fst served) = 200%nat
  /\ JS.get (body_of (fst served)) "message" = VStr "Wallet debited successfully"
  /\ Part000.wallet_balance StringToNumber u (snd served)
     = balance (VNum 0) (VNum 0).
Proof.
  intros Hu Hp served.
  assert (G : ge0 (VNum points) = false).
  { simpl. apply Z.leb_gt. exact Hp. }
  split; [ | split].
  - unfold served. destruct (wallets_of u c) as [ | s rest] eqn:E.
    + rewrite (transaction_new StringToNumber now oid u points rupees note c Hu E).
      reflexivity.
    + rewrite (transaction_existing StringToNumber now oid u points rupees note c Hu)
        by (rewrite E; discriminate).
      reflexivity.
  - unfold served. destruct (wallets_of u c) as [ | s rest] eqn:E.
    + rewrite (transaction_new StringToNumber now oid u points rupees note c Hu E).
      unfold accepted_response. cbn [fst body_of]. rewrite G. reflexivity.
    + rewrite (transaction_existing StringToNumber now oid u points rupees note c Hu)
        by (rewrite E; discriminate).
      unfold accepted_response. cbn [fst body_of]. rewrite G. reflexivity.
  - apply balance_reads_zero.
Qed.

(** X2.  Whatever the collection holds and whoever asks, GET
    /api/wallet/balance/:userId of [src/unnamed/part_000] answers 0 points
    and 0 rupees: it reads [wallet.totalPoints] and [wallet.totalRupees],
    which the schema does not declare. *)
Theorem part000_balance_is_constant (u : string) (c : Collection) :
  Part000.wallet_balance StringToNumber u c = balance (VNum 0) (VNum 0).
Proof.
  unfold Part000.wallet_balance.
  destruct (Part000.Wallet_findOne StringToNumber c "userId" (VStr u))
    as [e | [wallet | ]] eqn:E.
  - rewrite (findOne_userId StringToNumber c (VStr u) (VStr u)) in E by reflexivity.
    discriminate E.
  - rewrite (findOne_userId StringToNumber c (VStr u) (VStr u)) in E by reflexivity.
    destruct (filter (matches "userId" (VStr u)) c) as [ | s l]; [discriminate E | ].
    injection E as <-. reflexivity.
  - reflexivity.
Qed.

End LedgerClaims.

(** The first credit of user ["u1"], then a second one: the account stays
    the bare wallet of the first. *)
Lemma aggregate_never_stored_witness :
  "u1" <> "" /\ no_account "u1" [] /\
  apply_all decimal "u1" [mkCall 1000 0 100 50 "test"; mkCall 2000 1 20 0 ""] []
  = [bare_wallet 0 (VStr "u1") 1000].
Proof.
  split; [discriminate | ]. split; [reflexivity | ].
  apply (aggregate_never_stored decimal "u1" (mkCall 1000 0 100 50 "test")
           [mkCall 2000 1 20 0 ""] []); [discriminate | reflexivity].
Defined.

Lemma credit_then_balance_reads_zero_witness :
  "u1" <> "" /\ no_account "u1" [] /\
  Part000.wallet_balance decimal "u1"
    (snd (Part000.wallet_add decimal 1000 0 (transaction_body "u1" 100 50 "test") []))
  = balance (VNum 0) (VNum 0).
Proof.
  split; [discriminate | ]. split; [reflexivity | ].
  apply (credit_then_balance_reads_zero decimal 1000 0 "u1" []);
    [discriminate | reflexivity].
Defined.

Lemma debit_accepted_not_applied_witness :
  "u1" <> "" /\ -1000000 < 0 /\
  status_of (fst (Part000.wallet_add decimal 1000 0
                    (transaction_body "u1" (-1000000) 0 "") [])) = 200%nat.
Proof.
  split; [discriminate | ]. split; [reflexivity | ].
  apply (debit_accepted_not_applied decimal 1000 0 "u1" (-1000000) 0 "" []);
    [discriminate | reflexivity].
Defined.

(** ** Balance of an unknown user, on both server files *)

Section BalanceClaims.

Variable StringToNumber : string -> jsval.

(** C6 (unknown user balance).  For every user for whom the collection
    holds no wallet, GET /api/wallet/balance/:userId answers with status
    200, [success: true], [totalPoints: 0] and [totalRupees: 0], in
    [src/server.js] and in [src/unnamed/part_000] alike. *)
Theorem unknown_user_balance_is_zero (u : string) (c : Collection) :
  no_account u c ->
  ServerJs.wallet_balance StringToNumber u c = balance (VNum 0) (VNum 0)
  /\ Part000.wallet_balance StringToNumber u c = balance (VNum 0) (VNum 0).
Proof.
  intros Hc. unfold no_account, wallets_of in Hc. split.
  - unfold ServerJs.wallet_balance, find. simpl. rewrite Hc. reflexivity.
  - unfold Part000.wallet_balance.
    rewrite (findOne_userId StringToNumber c (VStr u) (VStr u)) by reflexivity.
    rewrite Hc. reflexivity.
Qed.

End BalanceClaims.

(** User ["nonexistent"] next to the wallet of another user. *)
Lemma unknown_user_balance_is_zero_witness :
  no_account "nonexistent" [bare_wallet 0 (VStr "u1") 1000] /\
  ServerJs.wallet_balance decimal "nonexistent" [bare_wallet 0 (VStr "u1") 1000]
  = balance (VNum 0) (VNum 0).
Proof.
  split; [reflexivity | ].
  apply (unknown_user_balance_is_zero decimal "nonexistent"
           [bare_wallet 0 (VStr "u1") 1000]).
  reflexivity.
Defined.

(** ** Validation and defaults of POST /api/wallet/add *)

Section ValidationClaims.

Variable StringToNumber : string -> jsval.

(** C4 (input validation), evaluated on [src/server.js].  The claim says
    that a request with a user id and numeric points reaches the ledger
    also when the points are zero.  The handler of [src/server.js] tests
    [!points]: with points 0 it answers 400 and writes nothing, whatever
    the other fields. *)
Theorem serverjs_rejects_zero_points (now : Z) (oid : nat)
  (u r n : option json) (c : Collection) :
  ServerJs.wallet_add StringToNumber now oid
    {| userId := u; points := Some (JNum 0); rupees := r; note := n |} c
  = (missing_fields, c).
Proof.
  unfold ServerJs.wallet_add. cbn [userId points rupees field of_json truthy].
  rewrite Z.eqb_refl. cbn [negb].
  rewrite orb_true_r. reflexivity.
Qed.

(** C5 as amended (optional rupees).  The defaults are those of
    [src/unnamed/part_000] (line 176): there a request without rupees is
    served as the same request with [rupees: 0], a request without note as
    the same request with the empty note, and a request with a truthy user
    id and numeric points is answered with status 200 without rupees,
    with or without a note.
    [src/server.js] has no defaults (line 177) and requires rupees (line
    179): without rupees it answers 400, "Missing required fields", and
    writes nothing, whatever the other fields. *)
Theorem rupees_optional_in_part000_only (now : Z) (oid : nat)
  (u p r n : option json) (c : Collection) :
  Part000.wallet_add StringToNumber now oid
    {| userId := u; points := p; rupees := None; note := n |} c
  = Part000.wallet_add StringToNumber now oid
      {| userId := u; points := p; rupees := Some (JNum 0); note := n |} c
  /\ Part000.wallet_add StringToNumber now oid
       {| userId := u; points := p; rupees := r; note := None |} c
     = Part000.wallet_add StringToNumber now oid
         {| userId := u; points := p; rupees := r; note := Some (JStr "") |} c
  /\ (truthy (field u) = true -> (exists z, p = Some (JNum z)) ->
      status_of (fst (Part000.wallet_add StringToNumber now oid
                        {| userId := u; points := p; rupees := None; note := n |} c))
      = 200%nat)
  /\ ServerJs.wallet_add StringToNumber now oid
       {| userId := u; points := p; rupees := None; note := n |} c
     = (missing_fields, c).
Proof.
  split; [reflexivity | ]. split; [reflexivity | ]. split.
  - intros Hu [z ->].
    set (b := {| userId := u; points := Some (JNum z); rupees := None; note := n |}).
    destruct (wallets_of (to_string (field (userId b))) c) as [ | s rest] eqn:E.
    + rewrite (wallet_add_new StringToNumber now oid b c Hu eq_refl E). reflexivity.
    + rewrite (wallet_add_existing StringToNumber now oid b c s rest Hu eq_refl E).
      reflexivity.
  - unfold ServerJs.wallet_add. cbn [userId points rupees field truthy negb].
    rewrite orb_true_r. reflexivity.
Qed.

Lemma typeof_number_field (p : option json) :
  typeof (field p) = "number" <-> exists z, p = Some (JNum z).
Proof.
  split.
  - destruct p as [[ | b | z | s] | ]; simpl; try discriminate.
    intros _. exists z. reflexivity.
  - intros [z ->]. reflexivity.
Qed.

(** X1.  The guard of [src/unnamed/part_000] (line 178), for a request with
    scalar fields: the request is answered with status 400, "Missing or
    invalid fields", exactly when its user id is falsy or its points are
    not a JSON number, and the collection is then left as it was; a
    request that passes the test, zero points included, is answered with
    status 200. *)
Theorem part000_guard (now : Z) (oid : nat) (b : AddBody) (c : Collection) :
  (Part000.wallet_add StringToNumber now oid b c = (invalid_fields, c)
   <-> truthy (field (userId b)) = false \/ ~ (exists z, points b = Some (JNum z)))
  /\ (status_of (fst (Part000.wallet_add StringToNumber now oid b c)) = 400%nat
      <-> truthy (field (userId b)) = false \/ ~ (exists z, points b = Some (JNum z)))
  /\ (truthy (field (userId b)) = true -> (exists z, points b = Some (JNum z)) ->
      status_of (fst (Part000.wallet_add StringToNumber now oid b c)) = 200%nat).
Proof.
  destruct (truthy (field (userId b))) eqn:Hu.
  - destruct (String.eqb_spec (typeof (field (points b))) "number") as [Hp | Hp].
    + assert (A : status_of (fst (Part000.wallet_add StringToNumber now oid b c)) = 200%nat).
      { destruct (wallets_of (to_string (field (userId b))) c) as [ | s rest] eqn:E.
        - rewrite (wallet_add_new StringToNumber now oid b c Hu Hp E). reflexivity.
        - rewrite (wallet_add_existing StringToNumber now oid b c s rest Hu Hp E).
          reflexivity. }
      assert (N : ~ (true = false \/ ~ (exists z, points b = Some (JNum z)))).
      { intros [H | H]; [discriminate H | ]. apply H, typeof_number_field, Hp. }
      split; [ | split].
      * split; [ | intros H; contradiction (N H)].
        intros R. rewrite R in A. discriminate A.
      * split; [ | intros H; contradiction (N H)].
        intros R. rewrite R in A. discriminate A.
      * intros _ _. exact A.
    + assert (R : Part000.wallet_add StringToNumber now oid b c = (invalid_fields, c)).
      { apply wallet_add_rejected. rewrite Hu. simpl.
        apply String.eqb_neq, Hp. }
      assert (G : true = false \/ ~ (exists z, points b = Some (JNum z))).
      { right. intros Hz. apply typeof_number_field in Hz. contradiction. }
      split; [ | split].
      * split; [intros _; exact G | intros _; exact R].
      * rewrite R. split; [intros _; exact G | reflexivity].
      * intros _ Hz. apply typeof_number_field in Hz. contradiction.
  - assert (R : Part000.wallet_add StringToNumber now oid b c = (invalid_fields, c)).
    { apply wallet_add_rejected. rewrite Hu. reflexivity. }
    split; [ | split].
    + split; [intros _; left; reflexivity | intros _; exact R].
    + rewrite R. split; [intros _; left; reflexivity | reflexivity].
    + intros H. discriminate H.
Qed.

End ValidationClaims.

(** C5 as stated fails on [src/server.js]: a request with a user id and
    numeric points but without rupees is not accepted. *)
Lemma serverjs_refuses_absent_rupees :
  ServerJs.wallet_add decimal 1000 0
    {| userId := Some (JStr "u1"); points := Some (JNum 5);
       rupees := None; note := None |} []
  = (missing_fields, []).
Proof. reflexivity. Qed.

(** ** Payment routes (the same in both server files) *)

Lemma append_assoc (a b c : string) : ((a ++ b) ++ c = a ++ b ++ c)%string.
Proof.
  induction a as [ | x a IH]; simpl; [reflexivity | ]. rewrite IH. reflexivity.
Qed.

Lemma field_primitive (f : option json) : to_primitive (field f) = field f.
Proof. destruct f as [[ | b | z | s] | ]; reflexivity. Qed.

(** [orderId + "|" + paymentId] is the concatenation of the two ids, each
    printed by ToString, around the bar. *)
Lemma signed_message_computed (b : VerifyBody) :
  to_string (add (add (field (razorpay_order_id b)) (VStr "|"))
                 (field (razorpay_payment_id b)))
  = signed_message b.
Proof.
  unfold add, signed_message.
  rewrite !field_primitive. cbn [to_primitive is_string].
  rewrite orb_true_r. cbn [to_primitive is_string orb to_string].
  apply append_assoc.
Qed.

Lemma strict_neq_string_false (a : string) (v : jsval) :
  strict_neq_string a v = false <-> v = VStr a.
Proof.
  destruct v; simpl; try (split; [discriminate | discriminate]).
  rewrite negb_false_iff, String.eqb_eq.
  split; [intros -> | intros [= ->]]; reflexivity.
Qed.

Lemma field_is_string (f : option json) (a : string) :
  field f = VStr a <-> f = Some (JStr a).
Proof.
  destruct f as [[ | b | z | s] | ]; simpl;
    split; try discriminate; intros [= ->]; reflexivity.
Qed.

Section PaymentClaims.

Variable StringToNumber : string -> jsval.
Variable orders_create : OrderOptions -> string + jsval.
Variable hmac_sha256_hex : string -> string -> string.

(** C2 (payment confirmation).  With the shared secret [key], POST
    /api/payment/verify answers [success: true] if and only if the
    signature of the request is exactly the string
    HMAC-SHA256([key], orderId + "|" + paymentId) in hex; every other
    request, whatever its signature differs by, is answered with status
    400 and "Invalid signature".  The comparison is the strict inequality
    of the language; its timing is outside the model. *)
Theorem verify_accepts_exactly_the_hmac (key : string) (b : VerifyBody) :
  (payment_verify hmac_sha256_hex (Some key) b = verified
   <-> razorpay_signature b = Some (JStr (hmac_sha256_hex key (signed_message b))))
  /\ (payment_verify hmac_sha256_hex (Some key) b <> verified
      -> payment_verify hmac_sha256_hex (Some key) b = invalid_signature).
Proof.
  unfold payment_verify. rewrite signed_message_computed.
  destruct (strict_neq_string (hmac_sha256_hex key (signed_message b))
              (field (razorpay_signature b))) eqn:E.
  - split; [ | intros _; reflexivity].
    split; [discriminate | ].
    intros H. apply field_is_string, strict_neq_string_false in H.
    rewrite H in E. discriminate E.
  - split; [ | intros H; contradiction H; reflexivity].
    split; [ | intros _; reflexivity].
    intros _. apply field_is_string, strict_neq_string_false, E.
Qed.

(** C7 as amended (order creation).  The route tests only that the amount
    is not empty.  A request without amount, or with amount 0, is answered
    with status 400, "Amount is required", and submits nothing to the
    gateway.  A request with any other integer as amount, negative ones
    included, whose hundredfold is within 2^53 in magnitude, so that
    [amount * 100] is computed exactly, submits exactly one order to the
    gateway, for 100 times the amount; the answer is the order with status
    200, or status 500 when the gateway rejects it. *)
Theorem order_checks_presence_only (now : Z) (z : Z) :
  in_exact_range (z * 100) ->
  payment_order StringToNumber orders_create now {| amount := None |}
  = (amount_required, [])
  /\ payment_order StringToNumber orders_create now {| amount := Some (JNum z) |}
     = if z =? 0
       then (amount_required, [])
       else (match orders_create (order_options now z) with
             | inr order => Json 200 (VObj [("success", VBool true); ("order", order)])
             | inl msg => Caught (GatewayFailure msg)
             end,
             [order_options now z]).
Proof.
  intros X. split; [reflexivity | ].
  unfold payment_order. cbn [amount field of_json truthy].
  destruct (z =? 0); cbn [negb]; [reflexivity | ].
  change (mul StringToNumber (VNum z) (VNum 100)) with (VNum (to_double (z * 100))).
  rewrite (to_double_exact _ X).
  change (add (VStr "rcpt_") (VNum now)) with (VStr ("rcpt_" ++ number_to_string now)).
  fold (order_options now z).
  destruct (orders_create (order_options now z)); reflexivity.
Qed.

End PaymentClaims.

(** An order of 250 rupees created at clock reading 77: one order of
    25000 paise reaches the gateway. *)
Lemma order_checks_presence_only_witness :
  in_exact_range (250 * 100)
  /\ payment_order decimal echo_gateway 77 {| amount := Some (JNum 250) |}
     = if 250 =? 0
       then (amount_required, [])
       else (match echo_gateway (order_options 77 250) with
             | inr order => Json 200 (VObj [("success", VBool true); ("order", order)])
             | inl msg => Caught (GatewayFailure msg)
             end,
             [order_options 77 250]).
Proof.
  assert (H : in_exact_range (250 * 100)) by (unfold in_exact_range; simpl; lia).
  split; [exact H | ].
  exact (proj2 (order_checks_presence_only decimal echo_gateway 77 250 H)).
Defined.

(** Beyond the range of C7 as amended the amount of the order is a
    rounded product: for 360287970189641 rupees it is not the hundredfold,
    which ends in 100, but the double next to it. *)
Lemma large_amount_is_rounded :
  snd (payment_order decimal echo_gateway 77 {| amount := Some (JNum 360287970189641) |})
  = [ {| opt_amount := VNum 36028797018964096;
         opt_currency := "INR";
         opt_receipt := VStr "rcpt_77" |} ].
Proof. reflexivity. Qed.

(** C7 as stated fails: the amount -5 is not positive, and the route
    submits an order of -500 to the gateway and answers with status 200. *)
Lemma negative_amount_reaches_gateway :
  payment_order decimal echo_gateway 77 {| amount := Some (JNum (-5)) |}
  = (Json 200 (VObj [("success", VBool true);
                     ("order", VObj [("amount", VNum (-500))])]),
     [ {| opt_amount := VNum (-500);
          opt_currency := "INR";
          opt_receipt := VStr "rcpt_77" |} ]).
Proof. reflexivity. Qed.

(** ** Classification of transactions in [src/unnamed/part_000] *)

Section ClassificationClaims.

Variable StringToNumber : string -> jsval.


End ClassificationClaims.


(** ** Requests that overlap *)

Section InterleavingFacts.
Import Interleaving.

Variable StringToNumber : string -> jsval.

(** The two steps of a request, taken back to back, are the handler. *)
Lemma load_then_store (now : Z) (oid : nat) (b : AddBody) (c : Collection) :
  step StringToNumber (load StringToNumber now oid b c) c
  = (Answered (fst (Part000.wallet_add StringToNumber now oid b c)),
     snd (Part000.wallet_add StringToNumber now oid b c)).
Proof.
  unfold load, Part000.wallet_add.
  destruct (negb (truthy (field (userId b)))
            || negb (typeof (field (points b)) =? "number")%string);
    [reflexivity | ].
  destruct (Part000.Wallet_findOne StringToNumber c "userId" (field (userId b)))
    as [e | found]; cbn [bind]; [reflexivity | ].
  destruct (Part000.updated_wallet StringToNumber now oid (field (userId b))
              (field (points b)) (field_default (rupees b) (VNum 0))
              (field_default (note b) (VStr "")) found)
    as [e | wallet]; cbn [bind step]; [reflexivity | ].
  unfold store. destruct (save c wallet) as [e | c']; reflexivity.
Qed.

Lemma nth_error_middle (pre : list Request) (r : Request) (post : list Request) :
  nth_error (pre ++ r :: post)%list (List.length pre) = Some r.
Proof. induction pre as [ | x pre IH]; [reflexivity | exact IH]. Qed.

Lemma replace_middle (pre : list Request) (r r' : Request) (post : list Request) :
  replace (List.length pre) r' (pre ++ r :: post)%list = (pre ++ r' :: post)%list.
Proof.
  induction pre as [ | x pre IH]; [reflexivity | ].
  cbn [List.length app replace]. rewrite IH. reflexivity.
Qed.

(** Resuming an arrived request twice in a row serves it to its end. *)
Lemma resume_twice (pre post : list Request) (now : Z) (oid : nat) (b : AddBody)
  (c : Collection) :
  resume StringToNumber (List.length pre)
    (resume StringToNumber (List.length pre)
       {| wallets := c; requests := (pre ++ Received now oid b :: post)%list |})
  = {| wallets := snd (Part000.wallet_add StringToNumber now oid b c);
       requests :=
         (pre ++ Answered (fst (Part000.wallet_add StringToNumber now oid b c))
              :: post)%list |}.
Proof.
  unfold resume at 2. cbn [requests wallets].
  rewrite nth_error_middle. cbn [step]. rewrite replace_middle.
  unfold resume. cbn [requests wallets].
  rewrite nth_error_middle, load_then_store, replace_middle. reflexivity.
Qed.

Lemma run_twice (i : nat) (schedule : list nat) (sv : Server) :
  run StringToNumber (i :: i :: schedule) sv
  = run StringToNumber schedule (resume StringToNumber i (resume StringToNumber i sv)).
Proof. reflexivity. Qed.

Lemma one_after_another_from (u : string) (calls : list Call) :
  forall (pre : list Request) (c : Collection),
    wallets
      (run StringToNumber
         (flat_map (fun i => [i; i]) (seq (List.length pre) (List.length calls)))
         {| wallets := c; requests := (pre ++ arrivals u calls)%list |})
    = apply_all StringToNumber u calls c.
Proof.
  induction calls as [ | k calls IH]; intros pre c; [reflexivity | ].
  change (arrivals u (k :: calls))
    with (Received (call_now k) (call_oid k) (call_body u k) :: arrivals u calls).
  change (flat_map (fun i => [i; i]) (seq (List.length pre) (List.length (k :: calls))))
    with (List.length pre :: List.length pre
            :: flat_map (fun i => [i; i]) (seq (S (List.length pre)) (List.length calls))).
  rewrite run_twice, resume_twice.
  set (r := Answered (fst (Part000.wallet_add StringToNumber (call_now k)
                             (call_oid k) (call_body u k) c))).
  assert (E : (pre ++ r :: arrivals u calls)%list = ((pre ++ [r]) ++ arrivals u calls)%list).
  { rewrite <- app_assoc. reflexivity. }
  assert (L : S (List.length pre) = List.length (pre ++ [r])%list).
  { rewrite length_app. simpl. lia. }
  rewrite E, L, IH. reflexivity.
Qed.

Lemma load_new (now : Z) (oid : nat) (u : string) (points rupees : Z)
  (note : string) (c : Collection) :
  u <> "" -> no_account u c ->
  load StringToNumber now oid (transaction_body u points rupees note) c
  = Loaded (VNum points)
      (Part000.Wallet_new StringToNumber now oid
         (Part000.wallet_literal (VStr u) (VNum points) (VNum rupees) (VStr note))).
Proof.
  intros Hu Hc. unfold load.
  cbn [transaction_body userId Shared.points Shared.rupees Shared.note field field_default of_json].
  rewrite (truthy_nonempty u Hu). cbn [negb orb typeof String.eqb].
  rewrite (findOne_userId StringToNumber c (VStr u) (VStr u)) by reflexivity.
  unfold no_account, wallets_of in Hc. rewrite Hc. reflexivity.
Qed.

Lemma store_new (now : Z) (oid : nat) (u : string) (points rupees : Z)
  (note : string) (c : Collection) :
  store (VNum points)
    (Part000.Wallet_new StringToNumber now oid
       (Part000.wallet_literal (VStr u) (VNum points) (VNum rupees) (VStr note))) c
  = (Answered (accepted_response (VNum points) VUndef VUndef),
     (c ++ [bare_wallet oid (VStr u) now])%list).
Proof. reflexivity. Qed.

(** Two requests of a user without wallet that both load before either
    stores: each inserts a wallet. *)
Lemma overlap_inserts_twice (u : string) (k1 k2 : Call) (c : Collection) :
  u <> "" -> no_account u c ->
  run StringToNumber [0; 1; 0; 1]%nat
    {| wallets := c; requests := arrivals u [k1; k2] |}
  = {| wallets := (c ++ [ bare_wallet (call_oid k1) (VStr u) (call_now k1);
                          bare_wallet (call_oid k2) (VStr u) (call_now k2) ])%list;
       requests := [ Answered (accepted_response (VNum (call_points k1)) VUndef VUndef);
                     Answered (accepted_response (VNum (call_points k2)) VUndef VUndef) ] |}.
Proof.
  intros Hu Hc. unfold run, arrivals, call_body. cbn [map fold_left].
  unfold resume at 4. cbn [requests wallets nth_error step replace].
  rewrite (load_new _ _ u _ _ _ c Hu Hc).
  unfold resume at 3. cbn [requests wallets nth_error step replace].
  rewrite (load_new _ _ u _ _ _ c Hu Hc).
  unfold resume at 2. cbn [requests wallets nth_error step replace].
  rewrite store_new.
  unfold resume. cbn [requests wallets nth_error step replace].
  rewrite store_new, <- app_assoc. reflexivity.
Qed.

End InterleavingFacts.

Section ConcurrencyClaims.
Import Interleaving.

Variable StringToNumber : string -> jsval.

(** C9 as amended (no serialization per user).  POST /api/wallet/add
    reads the wallet with [findOne] and writes it with [save] in two
    separate steps, with no lock between them.  [credit(userID, 1, 0, "")]
    calls on a user without wallet that are served one after another, each
    to its end, leave exactly one wallet document of that user; two such
    calls that both read before either writes both find no wallet and
    leave two wallet documents of that user. *)
Theorem add_is_atomic_only_without_overlap (u : string) (stamps : list (Z * nat))
  (c : Collection) :
  u <> "" -> stamps <> [] -> no_account u c ->
  let calls := map unit_credit stamps in
  List.length
    (wallets_of u
       (wallets (run StringToNumber (one_after_another (List.length calls))
                   {| wallets := c; requests := arrivals u calls |}))) = 1%nat
  /\ forall s1 s2 : Z * nat,
       List.length
         (wallets_of u
            (wallets (run StringToNumber [0; 1; 0; 1]%nat
                        {| wallets := c;
                           requests := arrivals u [unit_credit s1; unit_credit s2] |})))
       = 2%nat.
Proof.
  intros Hu Hs Hc calls. split.
  - unfold one_after_another.
    pose proof (one_after_another_from StringToNumber u calls [] c) as H.
    change (List.length (@nil Request)) with 0%nat in H.
    change ([] ++ arrivals u calls)%list with (arrivals u calls) in H.
    rewrite H.
    destruct stamps as [ | s stamps]; [contradiction | ].
    unfold calls. cbn [map].
    rewrite (apply_all_new StringToNumber u _ _ c Hu Hc).
    rewrite wallets_of_app, wallets_of_bare.
    unfold no_account in Hc. rewrite Hc. reflexivity.
  - intros s1 s2.
    rewrite (overlap_inserts_twice StringToNumber u _ _ c Hu Hc). cbn [wallets].
    rewrite wallets_of_app.
    unfold no_account in Hc. rewrite Hc.
    change [bare_wallet (call_oid (unit_credit s1)) (VStr u) (call_now (unit_credit s1));
            bare_wallet (call_oid (unit_credit s2)) (VStr u) (call_now (unit_credit s2))]
      with ([bare_wallet (call_oid (unit_credit s1)) (VStr u) (call_now (unit_credit s1))]
            ++ [bare_wallet (call_oid (unit_credit s2)) (VStr u) (call_now (unit_credit s2))])%list.
    rewrite wallets_of_app, !wallets_of_bare. reflexivity.
Qed.

End ConcurrencyClaims.

(** Three credits of user ["u1"] served one after another. *)
Lemma add_is_atomic_only_without_overlap_witness :
  "u1" <> "" /\ [(1000, 0%nat); (1001, 1%nat); (1002, 2%nat)] <> [] /\ no_account "u1" [] /\
  List.length
    (wallets_of "u1"
       (Interleaving.wallets
          (Interleaving.run decimal
             (Interleaving.one_after_another
                (List.length (map unit_credit [(1000, 0%nat); (1001, 1%nat); (1002, 2%nat)])))
             {| Interleaving.wallets := [];
                Interleaving.requests :=
                  arrivals "u1"
                    (map unit_credit [(1000, 0%nat); (1001, 1%nat); (1002, 2%nat)]) |})))
  = 1%nat.
Proof.
  assert (Hu : "u1" <> "") by discriminate.
  assert (Hs : [(1000, 0%nat); (1001, 1%nat); (1002, 2%nat)] <> []) by discriminate.
  assert (Hc : no_account "u1" []) by reflexivity.
  split; [exact Hu | ]. split; [exact Hs | ]. split; [exact Hc | ].
  exact (proj1 (add_is_atomic_only_without_overlap decimal "u1"
                  [(1000, 0%nat); (1001, 1%nat); (1002, 2%nat)] [] Hu Hs Hc)).
Defined.

(** C9 as stated fails: two [credit("u1", 1, 0, "")] calls on an empty
    collection, the second arriving while the first awaits [findOne].
    Both are answered with status 200; the collection then holds two
    wallets of ["u1"], where serving the calls one after another leaves
    one, and the balance read next is 0 points, not 2. *)
Lemma overlapping_credits_lose_updates :
  let arrived :=
    {| Interleaving.wallets := [];
       Interleaving.requests :=
         arrivals "u1" [unit_credit (1000, 0%nat); unit_credit (1001, 1%nat)] |} in
  let overlapped := Interleaving.run decimal [0; 1; 0; 1]%nat arrived in
  let in_turn := Interleaving.run decimal [0; 0; 1; 1]%nat arrived in
  Interleaving.requests overlapped
  = [ Interleaving.Answered (accepted_response (VNum 1) VUndef VUndef);
      Interleaving.Answered (accepted_response (VNum 1) VUndef VUndef) ]
  /\ Interleaving.wallets overlapped
     = [bare_wallet 0 (VStr "u1") 1000; bare_wallet 1 (VStr "u1") 1001]
  /\ Interleaving.wallets in_turn = [bare_wallet 0 (VStr "u1") 1000]
  /\ Part000.wallet_balance decimal "u1" (Interleaving.wallets overlapped)
     = balance (VNum 0) (VNum 0)
  /\ Part000.wallet_balance decimal "u1" (Interleaving.wallets overlapped)
     <> balance (VNum 2) (VNum 0).
Proof.
  cbv zeta. repeat split; try (vm_compute; reflexivity).
  vm_compute. discriminate.
Qed.

(** ** The per-event ledger of [src/server.js] *)

Section ServerJsFacts.

Variable StringToNumber : string -> jsval.

Lemma truthy_nonzero (z : Z) : z <> 0 -> truthy (VNum z) = true.
Proof.
  intros H. simpl. destruct (Z.eqb_spec z 0); [contradiction | reflexivity].
Qed.

(** In [src/server.js] the same schema serves a working ledger: a
    transaction with a user id and non-zero points and rupees, integers
    within 2^53 in magnitude, is stored under the schema paths [points]
    and [rupees], and for a user without earlier wallet documents the
    balance read next is that transaction. *)
Theorem serverjs_round_trip (now : Z) (oid : nat) (u : string) (p r : Z)
  (c : Collection) :
  u <> "" -> p <> 0 -> r <> 0 -> in_exact_range p -> in_exact_range r ->
  no_account u c ->
  let served :=
    ServerJs.wallet_add StringToNumber now oid
      {| userId := Some (JStr u); points := Some (JNum p);
         rupees := Some (JNum r); note := None |} c in
  status_of (fst served) = 200%nat
  /\ ServerJs.wallet_balance StringToNumber u (snd served)
     = balance (VNum p) (VNum r).
Proof.
  intros Hu Hp Hr Xp Xr Hc served.
  assert (E : served
              = (Json 200 (VObj [("success", VBool true);
                                 ("message", VStr "Wallet updated successfully");
                                 ("wallet", VObj [("userId", VStr u); ("points", VNum p);
                                                  ("rupees", VNum r); ("date", VNum now)])]),
                 (c ++ [ {| st_id := oid;
                            st_paths := [("userId", VStr u); ("points", VNum p);
                                         ("rupees", VNum r); ("date", VNum now)] |} ])%list)).
  { unfold served, ServerJs.wallet_add.
    cbn [userId points rupees field of_json].
    rewrite (truthy_nonempty u Hu), (truthy_nonzero p Hp), (truthy_nonzero r Hr).
    reflexivity. }
  rewrite E. split; [reflexivity | ].
  cbn [snd]. unfold ServerJs.wallet_balance, find.
  cbn [schema_path walletSchema String.eqb Ascii.eqb Bool.eqb path_type cast cast_string bind].
  rewrite filter_app. unfold no_account, wallets_of in Hc. rewrite Hc.
  cbn [filter matches st_paths prop String.eqb Ascii.eqb Bool.eqb scalar_eqb app].
  rewrite String.eqb_refl. cbn [map].
  unfold ServerJs.sort_date_desc. cbn [fold_right ServerJs.insert_desc fold_left].
  unfold doc_get.
  cbn [declared schema_path walletSchema String.eqb Ascii.eqb Bool.eqb
       hydrate doc_paths st_paths prop].
  rewrite !add_exact by (simpl; assumption). reflexivity.
Qed.

End ServerJsFacts.

Lemma serverjs_round_trip_witness :
  "u1" <> "" /\ 100 <> 0 /\ 50 <> 0 /\ in_exact_range 100 /\ in_exact_range 50
  /\ no_account "u1" [] /\
  ServerJs.wallet_balance decimal "u1"
    (snd (ServerJs.wallet_add decimal 1000 0
            {| userId := Some (JStr "u1"); points := Some (JNum 100);
               rupees := Some (JNum 50); note := None |} []))
  = balance (VNum 100) (VNum 50).
Proof.
  split; [discriminate | ]. split; [discriminate | ]. split; [discriminate | ].
  split; [unfold in_exact_range; simpl; lia | ].
  split; [unfold in_exact_range; simpl; lia | ].
  split; [reflexivity | ].
  apply (serverjs_round_trip decimal 1000 0 "u1" 100 50 []);
    [discriminate | discriminate | discriminate
     | unfold in_exact_range; simpl; lia | unfold in_exact_range; simpl; lia
     | reflexivity].
Defined.

(** ** The per-event ledger of [src/server.js]: totals *)

Section EventLedgerFacts.
Import Events.

Variable StringToNumber : string -> jsval.

Lemma cast_number_truthy (v x : jsval) :
  truthy v = true -> cast_number StringToNumber v = Some x ->
  exists z, x = VNum z.
Proof.
  destruct v as [ | | b | z | | s | l | o]; simpl; try discriminate.
  - intros _ [= <-]. eexists; reflexivity.
  - intros _ [= <-]. eexists; reflexivity.
  - destruct (s =? "")%string; [discriminate | ]. intros _.
    destruct (StringToNumber s); try discriminate.
    intros [= <-]. eexists; reflexivity.
Qed.

(** A key given with a truthy value is cast; its default plays no part. *)
Lemma init_path_truthy (now : Z) (obj : list (string * jsval)) (k : string)
  (p : SchemaPath) (v : jsval) :
  prop obj k = v -> truthy v = true ->
  init_path StringToNumber now obj k p
  = match cast StringToNumber (path_type p) v with
    | Some c => (c, true)
    | None => (VUndef, false)
    end.
Proof.
  intros E T. unfold init_path. rewrite E.
  destruct v; try discriminate T; reflexivity.
Qed.

(** What a request does to the collection: nothing, or one more document
    whose points and rupees are numbers. *)
Lemma serverjs_add_shape (now : Z) (oid : nat) (b : AddBody) (c : Collection) :
  snd (ServerJs.wallet_add StringToNumber now oid b c) = c
  \/ exists s, snd (ServerJs.wallet_add StringToNumber now oid b c) = (c ++ [s])%list
               /\ numeric s = true.
Proof.
  unfold ServerJs.wallet_add.
  destruct (truthy (field (userId b))) eqn:Hu; [ | left; reflexivity].
  destruct (truthy (field (points b))) eqn:Hp; [ | left; reflexivity].
  destruct (truthy (field (rupees b))) eqn:Hr; [ | left; reflexivity].
  cbn [negb orb]. unfold save, Model_new.
  cbn [doc_invalid doc_isNew doc_paths doc_id walletSchema map forallb fst snd].
  set (obj := [("userId", field (userId b)); ("points", field (points b));
               ("rupees", field (rupees b))]).
  rewrite (init_path_truthy now obj "userId" _ (field (userId b)) eq_refl Hu).
  rewrite (init_path_truthy now obj "points" _ (field (points b)) eq_refl Hp).
  rewrite (init_path_truthy now obj "rupees" _ (field (rupees b)) eq_refl Hr).
  cbn [path_type cast].
  destruct (cast_string (field (userId b))) as [xu | ]; [ | left; reflexivity].
  destruct (cast_number StringToNumber (field (points b))) as [xp | ] eqn:Ep;
    [ | left; reflexivity].
  destruct (cast_number StringToNumber (field (rupees b))) as [xr | ] eqn:Er;
    [ | left; reflexivity].
  destruct (cast_number_truthy _ _ Hp Ep) as [zp ->].
  destruct (cast_number_truthy _ _ Hr Er) as [zr ->].
  right. eexists. split; reflexivity.
Qed.

Lemma numeric_ledger_app (c1 c2 : Collection) :
  numeric_ledger (c1 ++ c2)%list <-> numeric_ledger c1 /\ numeric_ledger c2.
Proof.
  unfold numeric_ledger. rewrite forallb_app. apply andb_true_iff.
Qed.

Lemma serverjs_add_numeric (now : Z) (oid : nat) (b : AddBody) (c : Collection) :
  numeric_ledger c ->
  numeric_ledger (snd (ServerJs.wallet_add StringToNumber now oid b c)).
Proof.
  intros H. destruct (serverjs_add_shape now oid b c) as [-> | [s [-> N]]];
    [exact H | ].
  apply numeric_ledger_app. split; [exact H | ].
  unfold numeric_ledger. simpl. rewrite N. reflexivity.
Qed.

Lemma insert_desc_perm (d : Document) (l : list Document) :
  Permutation (ServerJs.insert_desc d l) (d :: l).
Proof.
  induction l as [ | x l IH]; simpl; [apply Permutation_refl | ].
  destruct (ServerJs.date_of x <? ServerJs.date_of d); [apply Permutation_refl | ].
  apply perm_trans with (x :: d :: l); [apply perm_skip, IH | apply perm_swap].
Qed.

(** Sorting by date only reorders. *)
Lemma sort_date_desc_perm (l : list Document) :
  Permutation (ServerJs.sort_date_desc l) l.
Proof.
  induction l as [ | d l IH]; simpl; [apply Permutation_refl | ].
  apply perm_trans with (d :: ServerJs.sort_date_desc l);
    [apply insert_desc_perm | apply perm_skip, IH].
Qed.

Lemma doc_total_perm (k : string) (l l' : list Document) :
  Permutation l l' -> doc_total k l = doc_total k l'.
Proof.
  induction 1; simpl; lia.
Qed.

Lemma doc_weight_perm (k : string) (l l' : list Document) :
  Permutation l l' -> doc_weight k l = doc_weight k l'.
Proof.
  induction 1; simpl; lia.
Qed.

(** The [reduce] of the balance route over documents that hold numbers
    whose magnitudes, with that of the start value, add up to at most
    2^53: no sum on the way is rounded. *)
Lemma reduce_numbers (k : string) (l : list Document) :
  Forall (fun d => exists z, doc_get walletSchema d k = VNum z) l ->
  forall a : Z,
    Z.abs a + doc_weight k l <= 9007199254740992 ->
    fold_left (fun sum w => add sum (doc_get walletSchema w k)) l (VNum a)
    = VNum (a + doc_total k l).
Proof.
  induction 1 as [ | d l [z Hz] _ IH]; intros a B.
  - simpl. f_equal. lia.
  - assert (D : doc_number k d = z) by (unfold doc_number; rewrite Hz; reflexivity).
    assert (W : 0 <= doc_weight k l) by (clear; induction l; simpl; lia).
    change (doc_weight k (d :: l)) with (Z.abs (doc_number k d) + doc_weight k l) in B.
    change (doc_total k (d :: l)) with (doc_number k d + doc_total k l).
    rewrite D in *. cbn [fold_left].
    rewrite Hz, add_exact by (unfold in_exact_range; lia).
    rewrite IH by lia. f_equal. lia.
Qed.

Lemma numeric_wallets (u : string) (c : Collection) :
  numeric_ledger c -> Forall (fun s => numeric s = true) (wallets_of u c).
Proof.
  unfold numeric_ledger, wallets_of. rewrite forallb_forall. intros H.
  apply Forall_forall. intros s Hs. apply filter_In in Hs. apply H, Hs.
Qed.

Lemma numeric_points (s : Stored) :
  numeric s = true ->
  (exists z, doc_get walletSchema (hydrate s) "points" = VNum z)
  /\ (exists z, doc_get walletSchema (hydrate s) "rupees" = VNum z).
Proof.
  unfold numeric, doc_get. cbn [declared schema_path walletSchema String.eqb Ascii.eqb Bool.eqb
                                   hydrate doc_paths].
  destruct (prop (st_paths s) "points"); try discriminate.
  destruct (prop (st_paths s) "rupees"); try discriminate.
  intros _. split; eexists; reflexivity.
Qed.

Lemma doc_total_hydrate (l : list Stored) :
  doc_total "points" (map hydrate l) = fold_right (fun s acc => number_at "points" s + acc) 0 l
  /\ doc_total "rupees" (map hydrate l) = fold_right (fun s acc => number_at "rupees" s + acc) 0 l.
Proof.
  induction l as [ | s l [IHp IHr]]; [split; reflexivity | ].
  split; simpl; [rewrite IHp | rewrite IHr]; reflexivity.
Qed.

Lemma doc_weight_hydrate (l : list Stored) :
  doc_weight "points" (map hydrate l)
  = fold_right (fun s acc => Z.abs (number_at "points" s) + acc) 0 l
  /\ doc_weight "rupees" (map hydrate l)
     = fold_right (fun s acc => Z.abs (number_at "rupees" s) + acc) 0 l.
Proof.
  induction l as [ | s l [IHp IHr]]; [split; reflexivity | ].
  split; simpl; [rewrite IHp | rewrite IHr]; reflexivity.
Qed.

(** On a collection whose wallet documents hold numbers, the balance of a
    user whose points and whose rupees add up to at most 2^53 in
    magnitude is the pair of the sums over the documents of the user. *)
Lemma serverjs_balance_totals (u : string) (c : Collection) :
  numeric_ledger c ->
  in_exact_range (weight "points" u c) -> in_exact_range (weight "rupees" u c) ->
  ServerJs.wallet_balance StringToNumber u c
  = balance (VNum (total "points" u c)) (VNum (total "rupees" u c)).
Proof.
  intros N Xp Xr. unfold ServerJs.wallet_balance, find.
  cbn [schema_path walletSchema String.eqb Ascii.eqb Bool.eqb path_type cast cast_string bind].
  fold (wallets_of u c).
  assert (F : Forall (fun s => numeric s = true) (wallets_of u c))
    by (apply numeric_wallets, N).
  unfold in_exact_range, weight in Xp, Xr.
  destruct (doc_weight_hydrate (wallets_of u c)) as [Wp Wr].
  rewrite <- Wp in Xp. rewrite <- Wr in Xr.
  set (docs := map hydrate (wallets_of u c)) in *.
  assert (P : Permutation (ServerJs.sort_date_desc docs) docs)
    by apply sort_date_desc_perm.
  assert (Fp : Forall (fun d => exists z, doc_get walletSchema d "points" = VNum z) docs).
  { unfold docs. apply Forall_map. eapply Forall_impl; [ | exact F].
    intros s Hs. apply (numeric_points s Hs). }
  assert (Fr : Forall (fun d => exists z, doc_get walletSchema d "rupees" = VNum z) docs).
  { unfold docs. apply Forall_map. eapply Forall_impl; [ | exact F].
    intros s Hs. apply (numeric_points s Hs). }
  rewrite (reduce_numbers "points" _ (Permutation_Forall (Permutation_sym P) Fp))
    by (rewrite (doc_weight_perm "points" _ _ P); lia).
  rewrite (reduce_numbers "rupees" _ (Permutation_Forall (Permutation_sym P) Fr))
    by (rewrite (doc_weight_perm "rupees" _ _ P); lia).
  rewrite (doc_total_perm "points" _ _ P), (doc_total_perm "rupees" _ _ P).
  unfold docs. destruct (doc_total_hydrate (wallets_of u c)) as [-> ->].
  reflexivity.
Qed.

Lemma serverjs_add_event (e : Event) (c : Collection) :
  passes e ->
  snd (ServerJs.wallet_add StringToNumber (ev_now e) (ev_oid e) (event_body e) c)
  = (c ++ [event_wallet e])%list.
Proof.
  intros [Hu [Hp Hr]]. unfold ServerJs.wallet_add, event_body.
  cbn [userId points rupees field of_json].
  rewrite (truthy_nonempty _ Hu), (truthy_nonzero _ Hp), (truthy_nonzero _ Hr).
  reflexivity.
Qed.

Lemma total_app (k u : string) (c1 c2 : Collection) :
  total k u (c1 ++ c2)%list = total k u c1 + total k u c2.
Proof.
  unfold total. rewrite wallets_of_app.
  induction (wallets_of u c1) as [ | s l IH]; simpl; [reflexivity | ].
  rewrite IH. lia.
Qed.

Lemma weight_app (k u : string) (c1 c2 : Collection) :
  weight k u (c1 ++ c2)%list = weight k u c1 + weight k u c2.
Proof.
  unfold weight. rewrite wallets_of_app.
  induction (wallets_of u c1) as [ | s l IH]; simpl; [reflexivity | ].
  rewrite IH. lia.
Qed.

Lemma total_event (u : string) (e : Event) :
  total "points" u [event_wallet e] = (if (ev_user e =? u)%string then ev_points e else 0)
  /\ total "rupees" u [event_wallet e] = (if (ev_user e =? u)%string then ev_rupees e else 0).
Proof.
  unfold total, wallets_of, matches, event_wallet.
  cbn [filter st_paths prop String.eqb Ascii.eqb Bool.eqb scalar_eqb].
  destruct (ev_user e =? u)%string; cbn [fold_right]; unfold number_at;
    cbn [st_paths prop String.eqb Ascii.eqb Bool.eqb]; split; lia.
Qed.

Lemma weight_event (u : string) (e : Event) :
  weight "points" u [event_wallet e]
  = (if (ev_user e =? u)%string then Z.abs (ev_points e) else 0)
  /\ weight "rupees" u [event_wallet e]
     = (if (ev_user e =? u)%string then Z.abs (ev_rupees e) else 0).
Proof.
  unfold weight, wallets_of, matches, event_wallet.
  cbn [filter st_paths prop String.eqb Ascii.eqb Bool.eqb scalar_eqb].
  destruct (ev_user e =? u)%string; cbn [fold_right]; unfold number_at;
    cbn [st_paths prop String.eqb Ascii.eqb Bool.eqb]; split; lia.
Qed.

Lemma serve_cons (e : Event) (events : list Event) (c : Collection) :
  serve StringToNumber (e :: events) c
  = serve StringToNumber events
      (snd (ServerJs.wallet_add StringToNumber (ev_now e) (ev_oid e) (event_body e) c)).
Proof. reflexivity. Qed.

Lemma serve_numeric (events : list Event) :
  forall c, numeric_ledger c -> numeric_ledger (serve StringToNumber events c).
Proof.
  induction events as [ | e events IH]; intros c N; [exact N | ].
  rewrite serve_cons. apply IH, serverjs_add_numeric, N.
Qed.

Lemma serve_totals (u : string) (events : list Event) :
  Forall passes events ->
  forall c,
    total "points" u (serve StringToNumber events c)
    = total "points" u c + delta ev_points u events
    /\ total "rupees" u (serve StringToNumber events c)
       = total "rupees" u c + delta ev_rupees u events.
Proof.
  induction 1 as [ | e events He _ IH]; intros c; [split; simpl; lia | ].
  rewrite serve_cons, (serverjs_add_event e c He).
  destruct (IH (c ++ [event_wallet e])%list) as [-> ->].
  rewrite !total_app. destruct (total_event u e) as [-> ->].
  split; simpl; lia.
Qed.

Lemma serve_weights (u : string) (events : list Event) :
  Forall passes events ->
  forall c,
    weight "points" u (serve StringToNumber events c)
    = weight "points" u c + spread ev_points u events
    /\ weight "rupees" u (serve StringToNumber events c)
       = weight "rupees" u c + spread ev_rupees u events.
Proof.
  induction 1 as [ | e events He _ IH]; intros c; [split; simpl; lia | ].
  rewrite serve_cons, (serverjs_add_event e c He).
  destruct (IH (c ++ [event_wallet e])%list) as [-> ->].
  rewrite !weight_app. destruct (weight_event u e) as [-> ->].
  split; simpl; lia.
Qed.

(** After transactions that pass the guard, the balance of a user whose
    points and whose rupees add up to at most 2^53 in magnitude. *)
Lemma served_balance (u : string) (events : list Event) (c : Collection) :
  numeric_ledger c -> Forall passes events -> sums_exactly u events c ->
  ServerJs.wallet_balance StringToNumber u (serve StringToNumber events c)
  = balance (VNum (total "points" u c + delta ev_points u events))
            (VNum (total "rupees" u c + delta ev_rupees u events)).
Proof.
  intros N P [Xp Xr].
  destruct (serve_weights u events P c) as [Wp Wr].
  rewrite (serverjs_balance_totals u _ (serve_numeric events c N))
    by (rewrite ?Wp, ?Wr; assumption).
  destruct (serve_totals u events P c) as [-> ->]. reflexivity.
Qed.

Lemma total_within_weight (k u : string) (c : Collection) :
  Z.abs (total k u c) <= weight k u c.
Proof.
  unfold total, weight.
  induction (wallets_of u c) as [ | s l IH]; simpl; lia.
Qed.

Lemma delta_within_spread (f : Event -> Z) (u : string) (events : list Event) :
  Z.abs (delta f u events) <= spread f u events.
Proof.
  unfold delta, spread.
  induction events as [ | e events IH]; simpl; [lia | ].
  destruct (ev_user e =? u)%string; lia.
Qed.

Lemma sum_perm (l l' : list Z) :
  Permutation l l' -> fold_right Z.add 0 l = fold_right Z.add 0 l'.
Proof.
  induction 1; simpl; lia.
Qed.

(** The deltas of a user depend on the payloads alone. *)
Lemma delta_payload (u : string) (events : list Event) :
  delta ev_points u events
  = fold_right Z.add 0
      (map (fun p : string * (Z * Z) => if (fst p =? u)%string then fst (snd p) else 0)
           (map payload events))
  /\ delta ev_rupees u events
     = fold_right Z.add 0
         (map (fun p : string * (Z * Z) => if (fst p =? u)%string then snd (snd p) else 0)
              (map payload events)).
Proof.
  induction events as [ | e events [IHp IHr]]; [split; reflexivity | ].
  split; simpl; [rewrite IHp | rewrite IHr]; reflexivity.
Qed.

Lemma spread_payload (u : string) (events : list Event) :
  spread ev_points u events
  = fold_right Z.add 0
      (map (fun p : string * (Z * Z) =>
              if (fst p =? u)%string then Z.abs (fst (snd p)) else 0)
           (map payload events))
  /\ spread ev_rupees u events
     = fold_right Z.add 0
         (map (fun p : string * (Z * Z) =>
                 if (fst p =? u)%string then Z.abs (snd (snd p)) else 0)
              (map payload events)).
Proof.
  induction events as [ | e events [IHp IHr]]; [split; reflexivity | ].
  split; simpl; [rewrite IHp | rewrite IHr]; reflexivity.
Qed.

Lemma passes_payload (events : list Event) :
  Forall passes events
  <-> Forall (fun p : string * (Z * Z) =>
                fst p <> "" /\ fst (snd p) <> 0 /\ snd (snd p) <> 0)
             (map payload events).
Proof.
  rewrite Forall_map. split; intros H; (eapply Forall_impl; [ | exact H]);
    intros e He; exact He.
Qed.

End EventLedgerFacts.

Section EventLedgerProperties.
Import Events.

Variable StringToNumber : string -> jsval.

(** X6.  Whatever the request, POST /api/wallet/add of [src/server.js] leaves
    the collection as it was or appends one document whose points and
    rupees are numbers: a collection of such documents stays one. *)
Theorem serverjs_ledger_stays_numeric (now : Z) (oid : nat) (b : AddBody)
  (c : Collection) :
  (snd (ServerJs.wallet_add StringToNumber now oid b c) = c
   \/ exists s, snd (ServerJs.wallet_add StringToNumber now oid b c) = (c ++ [s])%list
                /\ numeric s = true)
  /\ (numeric_ledger c ->
      numeric_ledger (snd (ServerJs.wallet_add StringToNumber now oid b c))).
Proof.
  split; [apply serverjs_add_shape | apply serverjs_add_numeric].
Qed.

(** X7.  The ledger equation of [src/server.js]: after any sequence of
    transactions that pass the guard, the balance of a user is the balance
    before plus the points and the rupees of the transactions of that
    user; the transactions of other users do not touch it.  The statement
    is for a user whose points, stored and arriving, add up to at most
    2^53 in magnitude, and whose rupees do: every sum the balance route
    forms is then exact, and so is the balance it reports. *)
Theorem serverjs_balance_adds_up (events : list Event) (c : Collection)
  (u : string) :
  numeric_ledger c -> Forall passes events -> sums_exactly u events c ->
  ServerJs.wallet_balance StringToNumber u (serve StringToNumber events c)
  = balance (VNum (total "points" u c + delta ev_points u events))
            (VNum (total "rupees" u c + delta ev_rupees u events))
  /\ in_exact_range (total "points" u c + delta ev_points u events)
  /\ in_exact_range (total "rupees" u c + delta ev_rupees u events).
Proof.
  intros N P X. split; [apply (served_balance StringToNumber u events c N P X) | ].
  destruct X as [Xp Xr]. unfold in_exact_range in *.
  pose proof (total_within_weight "points" u c).
  pose proof (total_within_weight "rupees" u c).
  pose proof (delta_within_spread ev_points u events).
  pose proof (delta_within_spread ev_rupees u events).
  split; lia.
Qed.

(** X8.  In [src/server.js] the order of the transactions does not matter:
    the same transactions (user, points and rupees) served in another
    order, with whatever clock readings and ids the server draws for them
    then, leave a user with the same balance.  As in X7 the statement is
    for a user whose points and whose rupees add up to at most 2^53 in
    magnitude, so that the sums are exact in every order. *)
Theorem serverjs_order_does_not_matter (events events' : list Event)
  (c : Collection) (u : string) :
  numeric_ledger c -> Forall passes events ->
  Permutation (map payload events) (map payload events') ->
  sums_exactly u events c ->
  ServerJs.wallet_balance StringToNumber u (serve StringToNumber events c)
  = ServerJs.wallet_balance StringToNumber u (serve StringToNumber events' c).
Proof.
  intros N P Q X.
  assert (P' : Forall passes events').
  { apply passes_payload. apply (Permutation_Forall Q). apply passes_payload, P. }
  assert (X' : sums_exactly u events' c).
  { unfold sums_exactly in *.
    destruct (spread_payload u events) as [Sp Sr].
    destruct (spread_payload u events') as [-> ->].
    rewrite <- (sum_perm _ _ (Permutation_map
                                (fun p : string * (Z * Z) =>
                                   if (fst p =? u)%string then Z.abs (fst (snd p)) else 0) Q)).
    rewrite <- (sum_perm _ _ (Permutation_map
                                (fun p : string * (Z * Z) =>
                                   if (fst p =? u)%string then Z.abs (snd (snd p)) else 0) Q)).
    rewrite <- Sp, <- Sr. exact X. }
  rewrite (served_balance StringToNumber u events c N P X).
  rewrite (served_balance StringToNumber u events' c N P' X').
  destruct (delta_payload u events) as [-> ->].
  destruct (delta_payload u events') as [-> ->].
  rewrite (sum_perm _ _ (Permutation_map _ Q)).
  rewrite (sum_perm _ _ (Permutation_map
                           (fun p : string * (Z * Z) =>
                              if (fst p =? u)%string then snd (snd p) else 0) Q)).
  reflexivity.
Qed.

End EventLedgerProperties.

(** Beyond the range of X7 and X8 the order of service shows in the
    balance: 2^53 points and two single points add up to 2^53 + 2 when
    the large transaction is served first, so that the balance route,
    which adds the newest document first, meets it last, and to 2^53 when
    it is served last. *)
Lemma order_matters_beyond_exact_range :
  ServerJs.wallet_balance decimal "u1"
    (Events.serve decimal
       [Events.mkEvent 1000 1 "u1" 9007199254740992 1; Events.mkEvent 2000 2 "u1" 1 1;
        Events.mkEvent 3000 3 "u1" 1 1] [])
  = balance (VNum 9007199254740994) (VNum 3)
  /\ ServerJs.wallet_balance decimal "u1"
       (Events.serve decimal
          [Events.mkEvent 1000 1 "u1" 1 1; Events.mkEvent 2000 2 "u1" 1 1;
           Events.mkEvent 3000 3 "u1" 9007199254740992 1] [])
     = balance (VNum 9007199254740992) (VNum 3).
Proof. split; reflexivity. Qed.

Lemma serverjs_balance_adds_up_witness :
  Events.numeric_ledger [bare_wallet 0 (VStr "u1") 1000]
  /\ Forall Events.passes
       [Events.mkEvent 2000 1 "u1" 100 50; Events.mkEvent 3000 2 "u2" 7 7;
        Events.mkEvent 4000 3 "u1" (-30) (-5)]
  /\ Events.sums_exactly "u1"
       [Events.mkEvent 2000 1 "u1" 100 50; Events.mkEvent 3000 2 "u2" 7 7;
        Events.mkEvent 4000 3 "u1" (-30) (-5)]
       [bare_wallet 0 (VStr "u1") 1000]
  /\ ServerJs.wallet_balance decimal "u1"
       (Events.serve decimal
          [Events.mkEvent 2000 1 "u1" 100 50; Events.mkEvent 3000 2 "u2" 7 7;
           Events.mkEvent 4000 3 "u1" (-30) (-5)]
          [bare_wallet 0 (VStr "u1") 1000])
     = balance (VNum (Events.total "points" "u1" [bare_wallet 0 (VStr "u1") 1000]
                      + Events.delta Events.ev_points "u1"
                          [Events.mkEvent 2000 1 "u1" 100 50; Events.mkEvent 3000 2 "u2" 7 7;
                           Events.mkEvent 4000 3 "u1" (-30) (-5)]))
               (VNum (Events.total "rupees" "u1" [bare_wallet 0 (VStr "u1") 1000]
                      + Events.delta Events.ev_rupees "u1"
                          [Events.mkEvent 2000 1 "u1" 100 50; Events.mkEvent 3000 2 "u2" 7 7;
                           Events.mkEvent 4000 3 "u1" (-30) (-5)])).
Proof.
  assert (N : Events.numeric_ledger [bare_wallet 0 (VStr "u1") 1000]) by reflexivity.
  assert (P : Forall Events.passes
                [Events.mkEvent 2000 1 "u1" 100 50; Events.mkEvent 3000 2 "u2" 7 7;
                 Events.mkEvent 4000 3 "u1" (-30) (-5)]).
  { repeat constructor; simpl; discriminate. }
  assert (X : Events.sums_exactly "u1"
                [Events.mkEvent 2000 1 "u1" 100 50; Events.mkEvent 3000 2 "u2" 7 7;
                 Events.mkEvent 4000 3 "u1" (-30) (-5)]
                [bare_wallet 0 (VStr "u1") 1000]).
  { split; vm_compute; discriminate. }
  split; [exact N | ]. split; [exact P | ]. split; [exact X | ].
  exact (proj1 (serverjs_balance_adds_up decimal _ _ "u1" N P X)).
Defined.

(** Two transactions of a user, served in either order and at other
    clock readings. *)
Lemma serverjs_order_does_not_matter_witness :
  Events.numeric_ledger []
  /\ Forall Events.passes [Events.mkEvent 2000 1 "u1" 100 50; Events.mkEvent 3000 2 "u1" (-30) 5]
  /\ Permutation
       (map Events.payload
          [Events.mkEvent 2000 1 "u1" 100 50; Events.mkEvent 3000 2 "u1" (-30) 5])
       (map Events.payload
          [Events.mkEvent 2500 1 "u1" (-30) 5; Events.mkEvent 3500 2 "u1" 100 50])
  /\ Events.sums_exactly "u1"
       [Events.mkEvent 2000 1 "u1" 100 50; Events.mkEvent 3000 2 "u1" (-30) 5] []
  /\ ServerJs.wallet_balance decimal "u1"
       (Events.serve decimal
          [Events.mkEvent 2000 1 "u1" 100 50; Events.mkEvent 3000 2 "u1" (-30) 5] [])
     = ServerJs.wallet_balance decimal "u1"
         (Events.serve decimal
            [Events.mkEvent 2500 1 "u1" (-30) 5; Events.mkEvent 3500 2 "u1" 100 50] []).
Proof.
  assert (N : Events.numeric_ledger []) by reflexivity.
  assert (P : Forall Events.passes
                [Events.mkEvent 2000 1 "u1" 100 50; Events.mkEvent 3000 2 "u1" (-30) 5]).
  { repeat constructor; simpl; discriminate. }
  assert (Q : Permutation
                (map Events.payload
                   [Events.mkEvent 2000 1 "u1" 100 50; Events.mkEvent 3000 2 "u1" (-30) 5])
                (map Events.payload
                   [Events.mkEvent 2500 1 "u1" (-30) 5; Events.mkEvent 3500 2 "u1" 100 50]))
    by apply perm_swap.
  assert (X : Events.sums_exactly "u1"
                [Events.mkEvent 2000 1 "u1" 100 50; Events.mkEvent 3000 2 "u1" (-30) 5] []).
  { split; vm_compute; discriminate. }
  split; [exact N | ]. split; [exact P | ]. split; [exact Q | ]. split; [exact X | ].
  exact (serverjs_order_does_not_matter decimal _ _ [] "u1" N P Q X).
Defined.

(** ** The wallet routes of [src/unnamed/part_000]: what is written *)

Section Part000Properties.
Import Events.

Variable StringToNumber : string -> jsval.

Lemma part000_add_shape (now : Z) (oid : nat) (b : AddBody) (c : Collection) :
  snd (Part000.wallet_add StringToNumber now oid b c) = c
  \/ (snd (Part000.wallet_add StringToNumber now oid b c)
      = (c ++ [bare_wallet oid (field (userId b)) now])%list
      /\ no_account (to_string (field (userId b))) c).
Proof.
  destruct (truthy (field (userId b))) eqn:Hu.
  - destruct (String.eqb_spec (typeof (field (points b))) "number") as [Hp | Hp].
    + destruct (wallets_of (to_string (field (userId b))) c) as [ | s rest] eqn:E.
      * right. rewrite (wallet_add_new StringToNumber now oid b c Hu Hp E).
        split; [reflexivity | exact E].
      * left. rewrite (wallet_add_existing StringToNumber now oid b c s rest Hu Hp E).
        reflexivity.
    + left. rewrite wallet_add_rejected; [reflexivity | ].
      rewrite Hu. simpl. apply String.eqb_neq, Hp.
  - left. rewrite wallet_add_rejected; [reflexivity | ]. rewrite Hu. reflexivity.
Qed.

Lemma wallets_of_one_bare (v : string) (oid : nat) (uid : jsval) (now : Z) :
  wallets_of v [bare_wallet oid uid now]
  = if (to_string uid =? v)%string then [bare_wallet oid uid now] else [].
Proof.
  unfold wallets_of, matches. simpl. destruct (to_string uid =? v)%string; reflexivity.
Qed.


(** X4.  Served one at a time, the requests of [src/unnamed/part_000] keep at
    most one wallet document per user. *)
Theorem part000_keeps_one_wallet_each (now : Z) (oid : nat) (b : AddBody)
  (c : Collection) :
  one_wallet_each c ->
  one_wallet_each (snd (Part000.wallet_add StringToNumber now oid b c)).
Proof.
  intros H v.
  destruct (part000_add_shape now oid b c) as [-> | [-> E]]; [apply H | ].
  rewrite wallets_of_app, wallets_of_one_bare, length_app.
  destruct (String.eqb_spec (to_string (field (userId b))) v) as [<- | _].
  - unfold no_account in E. rewrite E. simpl. lia.
  - specialize (H v). simpl. lia.
Qed.

(** X5.  A user who already has a wallet is answered with status 200 and a
    balance of [NaN] points and [NaN] rupees (null in JSON), and nothing is
    written: the totals are read from a document that has none. *)
Theorem part000_known_user_is_told_nan (now : Z) (oid : nat) (u : string)
  (points rupees : Z) (note : string) (c : Collection) :
  u <> "" -> wallets_of u c <> [] ->
  Part000.wallet_add StringToNumber now oid (transaction_body u points rupees note) c
  = (accepted_response (VNum points) VNaN VNaN, c).
Proof. apply transaction_existing. Qed.

End Part000Properties.

Lemma part000_keeps_one_wallet_each_witness :
  Events.one_wallet_each [bare_wallet 0 (VStr "u1") 1000]
  /\ Events.one_wallet_each
       (snd (Part000.wallet_add decimal 2000 1 (transaction_body "u2" 5 0 "")
               [bare_wallet 0 (VStr "u1") 1000])).
Proof.
  assert (H : Events.one_wallet_each [bare_wallet 0 (VStr "u1") 1000]).
  { intros v. rewrite wallets_of_one_bare. destruct (_ =? v)%string; simpl; lia. }
  split; [exact H | ].
  exact (part000_keeps_one_wallet_each decimal 2000 1 (transaction_body "u2" 5 0 "") _ H).
Defined.

Lemma part000_known_user_is_told_nan_witness :
  "u1" <> "" /\ wallets_of "u1" [bare_wallet 0 (VStr "u1") 1000] <> []
  /\ Part000.wallet_add decimal 2000 1 (transaction_body "u1" 20 0 "")
       [bare_wallet 0 (VStr "u1") 1000]
     = (accepted_response (VNum 20) VNaN VNaN, [bare_wallet 0 (VStr "u1") 1000]).
Proof.
  assert (Hu : "u1" <> "") by discriminate.
  assert (Hw : wallets_of "u1" [bare_wallet 0 (VStr "u1") 1000] <> []) by discriminate.
  split; [exact Hu | ]. split; [exact Hw | ].
  exact (part000_known_user_is_told_nan decimal 2000 1 "u1" 20 0 "" _ Hu Hw).
Defined.

(** ** Payment routes: the gateway, receipts and the signed message *)

Lemma to_int_proper (z : Z) :
  Z.to_int z <> Decimal.Pos Decimal.Nil /\ Z.to_int z <> Decimal.Neg Decimal.Nil.
Proof.
  destruct z as [ | p | p]; simpl; split; try discriminate;
    intros [= H]; apply (DecimalPos.Unsigned.to_uint_nonnil p H).
Qed.

(** Distinct integers print differently. *)
Lemma number_to_string_inj (a b : Z) :
  number_to_string a = number_to_string b -> a = b.
Proof.
  unfold number_to_string. intros H.
  destruct (to_int_proper a) as [Ha1 Ha2]. destruct (to_int_proper b) as [Hb1 Hb2].
  pose proof (NilZero.isi (Z.to_int a) Ha1 Ha2) as Ia.
  pose proof (NilZero.isi (Z.to_int b) Hb1 Hb2) as Ib.
  rewrite H in Ia. rewrite Ia in Ib. injection Ib as Ib.
  apply DecimalZ.to_int_inj, Ib.
Qed.

Section PaymentProperties.

Variable StringToNumber : string -> jsval.
Variable orders_create : OrderOptions -> string + jsval.
Variable hmac_sha256_hex : string -> string -> string.

Lemma payment_order_cases (now : Z) (b : OrderBody) :
  (truthy (field (amount b)) = false
   /\ payment_order StringToNumber orders_create now b = (amount_required, []))
  \/ (truthy (field (amount b)) = true
      /\ exists o,
           o = {| opt_amount := mul StringToNumber (field (amount b)) (VNum 100);
                  opt_currency := "INR";
                  opt_receipt := VStr ("rcpt_" ++ number_to_string now) |}
           /\ payment_order StringToNumber orders_create now b
              = (match orders_create o with
                 | inr order => Json 200 (VObj [("success", VBool true); ("order", order)])
                 | inl msg => Caught (GatewayFailure msg)
                 end, [o])).
Proof.
  unfold payment_order. destruct (truthy (field (amount b))).
  - right. split; [reflexivity | ]. eexists. split; [reflexivity | ].
    cbn [negb].
    change (add (VStr "rcpt_") (VNum now)) with (VStr ("rcpt_" ++ number_to_string now)).
    destruct (orders_create _); reflexivity.
  - left. split; reflexivity.
Qed.

(** X9.  POST /api/payment/order contacts the gateway at most once, and exactly
    when it does not answer "Amount is required"; it answers with status
    200 exactly when the gateway accepted the order it submitted. *)
Theorem order_reaches_gateway_unless_rejected (now : Z) (b : OrderBody) :
  let served := payment_order StringToNumber orders_create now b in
  (snd served = [] <-> fst served = amount_required)
  /\ (List.length (snd served) <= 1)%nat
  /\ (status_of (fst served) = 200%nat
      <-> exists o order, snd served = [o] /\ orders_create o = inr order).
Proof.
  intros served. unfold served.
  destruct (payment_order_cases now b) as [[_ ->] | [_ [o [_ ->]]]]; cbn [fst snd].
  - split; [split; reflexivity | ]. split; [simpl; lia | ].
    split; [discriminate | ]. intros [o [order [H _]]]. discriminate H.
  - split.
    { split; [discriminate | ]. destruct (orders_create o); discriminate. }
    split; [simpl; lia | ].
    destruct (orders_create o) as [msg | order] eqn:E; cbn [status_of].
    + split; [discriminate | ].
      intros [o' [order [[= <-] H]]]. rewrite E in H. discriminate H.
    + split; [ | reflexivity]. intros _. exists o, order. split; [reflexivity | exact E].
Qed.

(** X10.  The receipt of an order is the clock reading behind "rcpt_": two
    orders carry the same receipt exactly when they were created at the
    same millisecond. *)
Theorem receipts_differ_with_the_clock (now1 now2 : Z) (b1 b2 : OrderBody)
  (o1 o2 : OrderOptions) :
  snd (payment_order StringToNumber orders_create now1 b1) = [o1] ->
  snd (payment_order StringToNumber orders_create now2 b2) = [o2] ->
  (opt_receipt o1 = opt_receipt o2 <-> now1 = now2).
Proof.
  intros H1 H2.
  destruct (payment_order_cases now1 b1) as [[_ E1] | [_ [p1 [D1 E1]]]];
    rewrite E1 in H1; [discriminate H1 | ].
  destruct (payment_order_cases now2 b2) as [[_ E2] | [_ [p2 [D2 E2]]]];
    rewrite E2 in H2; [discriminate H2 | ].
  cbn [snd] in H1, H2. injection H1 as <-. injection H2 as <-. subst p1 p2.
  cbn [opt_receipt]. split.
  - intros [= H]. apply number_to_string_inj, H.
  - intros ->. reflexivity.
Qed.

(** X11.  POST /api/payment/verify sees the two ids only through the strings
    they print as: requests whose ids print alike and whose signatures are
    the same get the same answer.  A safe integer and its numeral are not
    told apart, nor an absent id and the string "undefined".  The
    statement is for ids that are not numbers beyond the safe integers,
    which print otherwise than as their numeral. *)
Theorem verify_reads_ids_as_strings (secret : option string) (b b' : VerifyBody) :
  prints_plainly (razorpay_order_id b) = true ->
  prints_plainly (razorpay_payment_id b) = true ->
  prints_plainly (razorpay_order_id b') = true ->
  prints_plainly (razorpay_payment_id b') = true ->
  to_string (field (razorpay_order_id b)) = to_string (field (razorpay_order_id b')) ->
  to_string (field (razorpay_payment_id b)) = to_string (field (razorpay_payment_id b')) ->
  razorpay_signature b = razorpay_signature b' ->
  payment_verify hmac_sha256_hex secret b = payment_verify hmac_sha256_hex secret b'.
Proof.
  intros _ _ _ _ Ho Hp Hs. unfold payment_verify.
  destruct secret as [key | ]; [ | reflexivity].
  rewrite !signed_message_computed. unfold signed_message.
  rewrite Ho, Hp, Hs. reflexivity.
Qed.

End PaymentProperties.

Lemma receipts_differ_with_the_clock_witness :
  snd (payment_order decimal echo_gateway 77 {| amount := Some (JNum 5) |})
  = [order_options 77 5]
  /\ snd (payment_order decimal echo_gateway 78 {| amount := Some (JNum 5) |})
     = [order_options 78 5]
  /\ (opt_receipt (order_options 77 5) = opt_receipt (order_options 78 5) <-> 77 = 78).
Proof.
  assert (H1 : snd (payment_order decimal echo_gateway 77 {| amount := Some (JNum 5) |})
               = [order_options 77 5]) by reflexivity.
  assert (H2 : snd (payment_order decimal echo_gateway 78 {| amount := Some (JNum 5) |})
               = [order_options 78 5]) by reflexivity.
  split; [exact H1 | ]. split; [exact H2 | ].
  exact (receipts_differ_with_the_clock decimal echo_gateway 77 78 _ _ _ _ H1 H2).
Defined.

Lemma verify_reads_ids_as_strings_witness :
  prints_plainly (Some (JNum 5)) = true
  /\ payment_verify (fun key data => data) (Some "s3cret")
    {| razorpay_order_id := Some (JNum 5); razorpay_payment_id := None;
       razorpay_signature := Some (JStr "5|undefined") |}
  = payment_verify (fun key data => data) (Some "s3cret")
      {| razorpay_order_id := Some (JStr "5");
         razorpay_payment_id := Some (JStr "undefined");
         razorpay_signature := Some (JStr "5|undefined") |}.
Proof.
  split; [reflexivity | ].
  exact (verify_reads_ids_as_strings (fun key data => data) (Some "s3cret")
           {| razorpay_order_id := Some (JNum 5); razorpay_payment_id := None;
              razorpay_signature := Some (JStr "5|undefined") |}
           {| razorpay_order_id := Some (JStr "5");
              razorpay_payment_id := Some (JStr "undefined");
              razorpay_signature := Some (JStr "5|undefined") |}
           eq_refl eq_refl eq_refl eq_refl eq_refl eq_refl eq_refl).
Defined.

(** ** The form route *)

Section FormProperties.
Import Events.

Variable StringToNumber : string -> jsval.

Lemma init_string_truthy (now : Z) (obj : list (string * jsval)) (k : string)
  (d : PathDefault) (f : option json) :
  prop obj k = field f -> truthy (field f) = true ->
  init_path StringToNumber now obj k (mkPath SString d)
  = (VStr (to_string (field f)), true).
Proof.
  intros E T.
  rewrite (init_path_truthy StringToNumber now obj k _ (field f) E T).
  cbn [path_type cast]. rewrite (cast_string_truthy_field f T). reflexivity.
Qed.

Lemma init_string_any (now : Z) (obj : list (string * jsval)) (k : string)
  (f : option json) :
  prop obj k = field f ->
  init_path StringToNumber now obj k (mkPath SString NoDefault)
  = (match field f with
     | VUndef => VUndef
     | VNull => VNull
     | v => VStr (to_string v)
     end, true).
Proof.
  intros E. unfold init_path. rewrite E.
  destruct f as [[ | b | z | s] | ]; reflexivity.
Qed.

Lemma form_submit_complete (now : Z) (oid : nat) (b : Forms.FormBody)
  (forms : Collection) :
  form_complete b = true ->
  Forms.form_submit StringToNumber now oid b forms
  = (Json 200
       (VObj [ ("success", VBool true);
               ("message",
                VStr (to_string (field (Forms.formType b))
                      ++ " form submitted successfully"));
               ("form", VObj (st_paths (stored_form now oid b))) ]),
     (forms ++ [stored_form now oid b])%list).
Proof.
  unfold form_complete. rewrite !andb_true_iff.
  intros [[[[Hn Hm] He] Hp] Ha].
  unfold Forms.form_submit. rewrite Hn, Hm, He, Hp, Ha. cbn [negb orb].
  unfold save, Model_new.
  cbn [doc_invalid doc_isNew doc_paths doc_id Forms.formSchema map forallb fst snd].
  set (obj := [("name", field (Forms.name b)); ("mobile", field (Forms.mobile b));
               ("email", field (Forms.email b)); ("pan", field (Forms.pan b));
               ("aadhaar", field (Forms.aadhaar b));
               ("formType", field (Forms.formType b))]).
  rewrite (init_string_truthy now obj "name" NoDefault (Forms.name b) eq_refl Hn).
  rewrite (init_string_truthy now obj "mobile" NoDefault (Forms.mobile b) eq_refl Hm).
  rewrite (init_string_truthy now obj "email" NoDefault (Forms.email b) eq_refl He).
  rewrite (init_string_truthy now obj "pan" NoDefault (Forms.pan b) eq_refl Hp).
  rewrite (init_string_truthy now obj "aadhaar" NoDefault (Forms.aadhaar b) eq_refl Ha).
  rewrite (init_string_any now obj "formType" (Forms.formType b) eq_refl).
  reflexivity.
Qed.

Lemma form_submit_incomplete (now : Z) (oid : nat) (b : Forms.FormBody)
  (forms : Collection) :
  form_complete b = false ->
  Forms.form_submit StringToNumber now oid b forms = (missing_fields, forms).
Proof.
  unfold form_complete, Forms.form_submit. intros H.
  rewrite <- !negb_andb, H. reflexivity.
Qed.

(** X12.  POST /api/form/submit, for a form with scalar fields: the form is
    answered with status 400, "Missing required fields", exactly when one
    of name, mobile, email, pan and aadhaar is absent or falsy, and nothing
    is stored then; a form in which the five are given and truthy is
    answered with status 200.  The form type is not required. *)
Theorem form_accepted_iff_complete (now : Z) (oid : nat) (b : Forms.FormBody)
  (forms : Collection) :
  (Forms.form_submit StringToNumber now oid b forms = (missing_fields, forms)
   <-> form_complete b = false)
  /\ (status_of (fst (Forms.form_submit StringToNumber now oid b forms)) = 400%nat
      <-> form_complete b = false)
  /\ (form_complete b = true ->
      status_of (fst (Forms.form_submit StringToNumber now oid b forms)) = 200%nat).
Proof.
  destruct (form_complete b) eqn:C.
  - rewrite (form_submit_complete now oid b forms C). cbn [fst status_of].
    split; [split; discriminate | ]. split; [split; discriminate | reflexivity].
  - rewrite (form_submit_incomplete now oid b forms C). cbn [fst status_of].
    split; [split; reflexivity | ]. split; [split; reflexivity | discriminate].
Qed.

(** X13.  An accepted form adds exactly one document after the stored ones.  Its
    five required paths hold strings: a boolean or a safe integer sent in
    a field is stored as the string it prints as.  Without a form type the
    document has none and the message reads "undefined form submitted
    successfully".  The statement is for forms none of whose fields is a
    number beyond the safe integers. *)
Theorem form_is_stored_as_strings (now : Z) (oid : nat) (b : Forms.FormBody)
  (forms : Collection) :
  form_complete b = true -> form_prints_plainly b = true ->
  snd (Forms.form_submit StringToNumber now oid b forms)
  = (forms ++ [stored_form now oid b])%list
  /\ JS.get (body_of (fst (Forms.form_submit StringToNumber now oid b forms))) "message"
     = VStr (to_string (field (Forms.formType b)) ++ " form submitted successfully")
  /\ (Forms.formType b = None ->
      prop (st_paths (stored_form now oid b)) "formType" = VUndef
      /\ JS.get (body_of (fst (Forms.form_submit StringToNumber now oid b forms))) "message"
         = VStr "undefined form submitted successfully").
Proof.
  intros C _. rewrite (form_submit_complete now oid b forms C). cbn [fst snd body_of].
  split; [reflexivity | ]. split; [reflexivity | ].
  intros E. unfold stored_form. rewrite E. split; reflexivity.
Qed.

End FormProperties.

(** A form whose mobile number is sent as a number and whose type is
    left out. *)
Lemma form_is_stored_as_strings_witness :
  Events.form_complete
    (Forms.mkFormBody (Some (JStr "Asha")) (Some (JNum 9876543210))
       (Some (JStr "asha@example.org")) (Some (JStr "ABCDE1234F"))
       (Some (JStr "123412341234")) None) = true
  /\ Events.form_prints_plainly
       (Forms.mkFormBody (Some (JStr "Asha")) (Some (JNum 9876543210))
          (Some (JStr "asha@example.org")) (Some (JStr "ABCDE1234F"))
          (Some (JStr "123412341234")) None) = true
  /\ snd (Forms.form_submit decimal 1000 0
            (Forms.mkFormBody (Some (JStr "Asha")) (Some (JNum 9876543210))
               (Some (JStr "asha@example.org")) (Some (JStr "ABCDE1234F"))
               (Some (JStr "123412341234")) None) [])
     = ([] ++ [Events.stored_form 1000 0
                 (Forms.mkFormBody (Some (JStr "Asha")) (Some (JNum 9876543210))
                    (Some (JStr "asha@example.org")) (Some (JStr "ABCDE1234F"))
                    (Some (JStr "123412341234")) None)])%list.
Proof.
  assert (C : Events.form_complete
                (Forms.mkFormBody (Some (JStr "Asha")) (Some (JNum 9876543210))
                   (Some (JStr "asha@example.org")) (Some (JStr "ABCDE1234F"))
                   (Some (JStr "123412341234")) None) = true) by reflexivity.
  split; [exact C | ]. split; [reflexivity | ].
  exact (proj1 (form_is_stored_as_strings decimal 1000 0 _ [] C eq_refl)).
Defined.

(** ** The authentication routes *)

Section AuthFacts.
Import Events.

Variable StringToNumber : string -> jsval.
Variable userSchema : Schema.
Variable bcrypt_hash : string -> string -> string.
Variable bcrypt_compare : string -> string -> bool.

Lemma schema_path_In (sch : Schema) (k : string) (p : SchemaPath) :
  schema_path sch k = Some p -> In (k, p) sch.
Proof.
  induction sch as [ | [k' p'] sch IH]; simpl; [discriminate | ].
  destruct (String.eqb_spec k k') as [-> | _].
  - intros [= ->]. left. reflexivity.
  - intros H. right. apply IH, H.
Qed.

Lemma declared_path (sch : Schema) (k : string) :
  declared sch k = true -> exists p, schema_path sch k = Some p.
Proof.
  unfold declared. destruct (schema_path sch k) as [p | ]; [ | discriminate].
  intros _. exists p. reflexivity.
Qed.

(** A path of a new document holds what its first declaration makes of
    the object. *)
Lemma model_path (sch : Schema) (now : Z) (oid : nat)
  (obj : list (string * jsval)) (k : string) (p : SchemaPath) :
  schema_path sch k = Some p ->
  prop (doc_paths (Model_new StringToNumber sch now oid obj)) k
  = fst (init_path StringToNumber now obj k p).
Proof.
  unfold Model_new. cbn [doc_paths].
  induction sch as [ | [k' p'] sch IH]; simpl; [discriminate | ].
  destruct (String.eqb_spec k k') as [-> | _].
  - intros [= ->]. reflexivity.
  - exact IH.
Qed.

Lemma model_valid (sch : Schema) (now : Z) (oid : nat) (obj : list (string * jsval)) :
  (forall k p, In (k, p) sch -> snd (init_path StringToNumber now obj k p) = true) ->
  doc_invalid (Model_new StringToNumber sch now oid obj) = false.
Proof.
  intros H. unfold Model_new. cbn [doc_invalid].
  apply negb_false_iff, forallb_forall. intros [k p] I. apply H, I.
Qed.

(** A user document built from a string email and a string hash, on a
    schema that declares both as strings. *)
Lemma user_model (now : Z) (oid : nat) (e h : string) :
  strings_declared userSchema ->
  let user := Model_new StringToNumber userSchema now oid
                [("email", VStr e); ("password", VStr h)] in
  doc_invalid user = false
  /\ prop (doc_paths user) "email" = VStr e
  /\ prop (doc_paths user) "password" = VStr h.
Proof.
  intros [De [Dp S]] user.
  destruct (declared_path _ _ De) as [pe Pe].
  destruct (declared_path _ _ Dp) as [pp Pp].
  pose proof (S _ _ (schema_path_In _ _ _ Pe) (or_introl eq_refl)) as Te.
  pose proof (S _ _ (schema_path_In _ _ _ Pp) (or_intror eq_refl)) as Tp.
  split; [ | split].
  - apply model_valid. intros k p I. unfold init_path. cbn [prop].
    destruct (String.eqb_spec k "email") as [-> | Ne].
    + rewrite (S _ _ I (or_introl eq_refl)). reflexivity.
    + destruct (String.eqb_spec k "password") as [-> | Np].
      * rewrite (S _ _ I (or_intror eq_refl)). reflexivity.
      * reflexivity.
  - unfold user. rewrite (model_path _ _ _ _ _ _ Pe).
    unfold init_path. cbn [prop String.eqb Ascii.eqb Bool.eqb]. rewrite Te. reflexivity.
  - unfold user. rewrite (model_path _ _ _ _ _ _ Pp).
    unfold init_path. cbn [prop String.eqb Ascii.eqb Bool.eqb]. rewrite Tp. reflexivity.
Qed.

Lemma findOne_email (users : Collection) (e : string) :
  strings_declared userSchema ->
  findOne StringToNumber userSchema users "email" (VStr e)
  = inr (head (map hydrate (users_with e users))).
Proof.
  intros [De [_ S]]. destruct (declared_path _ _ De) as [pe Pe].
  unfold findOne, find. rewrite Pe.
  rewrite (S _ _ (schema_path_In _ _ _ Pe) (or_introl eq_refl)). reflexivity.
Qed.

(** The wallet of a new user. *)
Lemma register_wallet (now : Z) (oid : nat) (user : Document) (c : Collection) :
  save c (Model_new StringToNumber walletSchema now oid
            [("userId", Auth.doc__id user); ("points", VNum 0); ("rupees", VNum 0)])
  = inr (c ++ [empty_wallet oid (doc_id user) now])%list.
Proof. reflexivity. Qed.

(** A registration with a new email, on a schema that declares email and
    password as strings. *)
Lemma register_new (env : Auth.Draw) (e p : string) (db : Auth.Database) :
  strings_declared userSchema -> e <> "" -> p <> "" ->
  users_with e (Auth.users db) = [] ->
  Auth.register StringToNumber userSchema bcrypt_hash env (credentials e p) db
  = (Auth.Answer (Json 200 (VObj [("success", VBool true);
                                  ("message", VStr "User registered successfully")])),
     {| Auth.users :=
          (Auth.users db
           ++ [ {| st_id := Auth.user_oid env;
                   st_paths :=
                     doc_paths
                       (Model_new StringToNumber userSchema (Auth.user_now env)
                          (Auth.user_oid env)
                          [("email", VStr e);
                           ("password", VStr (bcrypt_hash p (Auth.salt env)))]) |} ])%list;
        Auth.wallets :=
          (Auth.wallets db
           ++ [empty_wallet (Auth.wallet_oid env) (Auth.user_oid env)
                 (Auth.wallet_now env)])%list |}).
Proof.
  intros S He Hp Hn. unfold Auth.register, credentials.
  cbn [Auth.email Auth.password field of_json].
  rewrite (truthy_nonempty e He), (truthy_nonempty p Hp). cbn [negb orb].
  rewrite (findOne_email _ e S), Hn. cbn [map head].
  destruct (user_model (Auth.user_now env) (Auth.user_oid env) e
              (bcrypt_hash p (Auth.salt env)) S) as [V _].
  unfold save at 1. rewrite V. cbn [doc_isNew Model_new].
  rewrite register_wallet. reflexivity.
Qed.

Lemma users_with_app (e : string) (c1 c2 : Collection) :
  users_with e (c1 ++ c2)%list = (users_with e c1 ++ users_with e c2)%list.
Proof. unfold users_with. apply filter_app. Qed.

(** After a registration with a new email the new user is the one found
    under that email. *)
Lemma registered_user_found (env : Auth.Draw) (e p : string) (db : Auth.Database) :
  strings_declared userSchema -> e <> "" -> p <> "" ->
  users_with e (Auth.users db) = [] ->
  exists s,
    Auth.users (snd (Auth.register StringToNumber userSchema bcrypt_hash env
                       (credentials e p) db))
    = (Auth.users db ++ [s])%list
    /\ st_id s = Auth.user_oid env
    /\ prop (st_paths s) "email" = VStr e
    /\ prop (st_paths s) "password" = VStr (bcrypt_hash p (Auth.salt env))
    /\ users_with e (Auth.users db ++ [s])%list = [s].
Proof.
  intros S He Hp Hn. rewrite (register_new env e p db S He Hp Hn). cbn [snd Auth.users].
  destruct (user_model (Auth.user_now env) (Auth.user_oid env) e
              (bcrypt_hash p (Auth.salt env)) S) as [_ [Pe Pp]].
  eexists. split; [reflexivity | ]. split; [reflexivity | ].
  split; [exact Pe | ]. split; [exact Pp | ].
  rewrite users_with_app, Hn. unfold users_with, matches. cbn [filter st_paths app].
  rewrite Pe. cbn [scalar_eqb]. rewrite String.eqb_refl. reflexivity.
Qed.

Lemma number_to_string_nonempty (z : Z) : number_to_string z <> "".
Proof.
  unfold number_to_string. intros H.
  destruct (to_int_proper z) as [H1 H2].
  pose proof (NilZero.isi (Z.to_int z) H1 H2) as I. rewrite H in I. discriminate I.
Qed.

End AuthFacts.

Section AuthProperties.
Import Events.

Variable StringToNumber : string -> jsval.
Variable userSchema : Schema.
Variable bcrypt_hash : string -> string -> string.
Variable bcrypt_compare : string -> string -> bool.

(** X14.  Whatever the [User] schema, a registration answered with status 400
    writes nothing, and one answered with status 200 has added one user
    document and, for that user, one wallet with 0 points and 0 rupees.
    Without an email or without a password the answer is 400 "Email and
    password required". *)
Theorem register_writes_on_success (env : Auth.Draw) (b : Auth.Credentials)
  (db : Auth.Database) :
  let served := Auth.register StringToNumber userSchema bcrypt_hash env b db in
  (Auth.reply_status (fst served) = 400%nat -> snd served = db)
  /\ (Auth.reply_status (fst served) = 200%nat ->
      Auth.wallets (snd served)
      = (Auth.wallets db
         ++ [empty_wallet (Auth.wallet_oid env) (Auth.user_oid env) (Auth.wallet_now env)])%list
      /\ exists s, Auth.users (snd served) = (Auth.users db ++ [s])%list
                   /\ st_id s = Auth.user_oid env)
  /\ (truthy (field (Auth.email b)) && truthy (field (Auth.password b)) = false ->
      served = (Auth.Answer credentials_required, db)).
Proof.
  intros served. unfold served, Auth.register.
  rewrite <- negb_andb.
  destruct (truthy (field (Auth.email b)) && truthy (field (Auth.password b))).
  2:{ cbn [negb]. split; [reflexivity | ].
      split; [discriminate | reflexivity]. }
  cbn [negb].
  destruct (findOne StringToNumber userSchema (Auth.users db) "email"
              (field (Auth.email b))) as [e | [existing | ]].
  1,2: split; [reflexivity | split; [discriminate | discriminate]].
  destruct (field (Auth.password b)) as [ | | pb | pz | | ps | pl | po];
    try (split; [reflexivity | split; [discriminate | discriminate]]; fail).
  destruct (save (Auth.users db) _) as [err | users'] eqn:Sv.
  { split; [reflexivity | split; [discriminate | discriminate]]. }
  rewrite register_wallet. cbn [fst snd Auth.reply_status status_of].
  split; [discriminate | ]. split; [ | discriminate].
  intros _. cbn [Auth.wallets Auth.users]. split; [reflexivity | ].
  unfold save in Sv. destruct (doc_invalid _); [discriminate Sv | ].
  cbn [doc_isNew Model_new] in Sv. injection Sv as <-.
  eexists. split; reflexivity.
Qed.

(** X15.  The password of a new user is stored as the bcrypt hash of what was
    sent, next to the email, on a [User] schema that declares both as
    strings. *)
Theorem registered_password_is_hashed (env : Auth.Draw) (e p : string)
  (db : Auth.Database) :
  strings_declared userSchema -> e <> "" -> p <> "" ->
  users_with e (Auth.users db) = [] ->
  exists s,
    Auth.users (snd (Auth.register StringToNumber userSchema bcrypt_hash env
                       (credentials e p) db))
    = (Auth.users db ++ [s])%list
    /\ prop (st_paths s) "email" = VStr e
    /\ prop (st_paths s) "password" = VStr (bcrypt_hash p (Auth.salt env)).
Proof.
  intros S He Hp Hn.
  destruct (registered_user_found StringToNumber userSchema bcrypt_hash env e p db S He Hp Hn)
    as [s [U [_ [Pe [Pp _]]]]].
  exists s. split; [exact U | ]. split; [exact Pe | exact Pp].
Qed.

(** X16.  Register, then log in: when bcrypt's [compare] accepts a password
    against its own [hash], the credentials a user registered with log the
    user in, and the answer carries the id of the new user and the
    email. *)
Theorem register_then_login (env : Auth.Draw) (e p : string) (db : Auth.Database) :
  strings_declared userSchema ->
  (forall pw salt, bcrypt_compare pw (bcrypt_hash pw salt) = true) ->
  e <> "" -> p <> "" -> users_with e (Auth.users db) = [] ->
  Auth.login StringToNumber userSchema bcrypt_compare (credentials e p)
    (Auth.users (snd (Auth.register StringToNumber userSchema bcrypt_hash env
                        (credentials e p) db)))
  = Auth.Answer (logged_in (Auth.user_oid env) e).
Proof.
  intros S Law He Hp Hn.
  destruct (registered_user_found StringToNumber userSchema bcrypt_hash env e p db S He Hp Hn)
    as [s [-> [I [Pe [Pp F]]]]].
  unfold Auth.login, credentials. cbn [Auth.email Auth.password field of_json].
  rewrite (findOne_email StringToNumber userSchema _ e S), F. cbn [map head].
  destruct S as [De [Dp _]].
  unfold doc_get. rewrite De, Dp. cbn [hydrate doc_paths]. rewrite Pe, Pp, Law.
  unfold Auth.doc__id, logged_in. cbn [hydrate doc_id]. rewrite I. reflexivity.
Qed.

(** X17.  An email can be registered once: after a registration with a new
    email, a further registration with that email is answered 400 "Email
    already registered" and writes nothing. *)
Theorem register_twice_is_refused (env env' : Auth.Draw) (e p p' : string)
  (db : Auth.Database) :
  strings_declared userSchema -> e <> "" -> p <> "" -> p' <> "" ->
  users_with e (Auth.users db) = [] ->
  let db' := snd (Auth.register StringToNumber userSchema bcrypt_hash env
                    (credentials e p) db) in
  Auth.register StringToNumber userSchema bcrypt_hash env' (credentials e p') db'
  = (Auth.Answer already_registered, db').
Proof.
  intros S He Hp Hp' Hn db'.
  destruct (registered_user_found StringToNumber userSchema bcrypt_hash env e p db S He Hp Hn)
    as [s [U [_ [_ [_ F]]]]].
  unfold Auth.register, credentials. cbn [Auth.email Auth.password field of_json].
  rewrite (truthy_nonempty e He), (truthy_nonempty p' Hp'). cbn [negb orb].
  rewrite (findOne_email StringToNumber userSchema _ e S).
  unfold db'. rewrite U, F. reflexivity.
Qed.

End AuthProperties.

Section RegisteredWallet.
Import Events.

Variable StringToNumber : string -> jsval.
Variable userSchema : Schema.
Variable bcrypt_hash : string -> string -> string.

Lemma total_empty_wallet (v : string) (oid user : nat) (now : Z) :
  total "points" v [empty_wallet oid user now] = 0
  /\ total "rupees" v [empty_wallet oid user now] = 0.
Proof.
  unfold total, wallets_of, matches, empty_wallet.
  cbn [filter st_paths prop String.eqb Ascii.eqb Bool.eqb scalar_eqb].
  destruct (Auth.ObjectId_string user =? v)%string; split; reflexivity.
Qed.

Lemma total_no_account (k v : string) (c : Collection) :
  no_account v c -> total k v c = 0.
Proof. unfold no_account, total. intros ->. reflexivity. Qed.

Lemma weight_empty_wallet (v : string) (oid user : nat) (now : Z) :
  weight "points" v [empty_wallet oid user now] = 0
  /\ weight "rupees" v [empty_wallet oid user now] = 0.
Proof.
  unfold weight, wallets_of, matches, empty_wallet.
  cbn [filter st_paths prop String.eqb Ascii.eqb Bool.eqb scalar_eqb].
  destruct (Auth.ObjectId_string user =? v)%string; split; reflexivity.
Qed.

Lemma weight_no_account (k v : string) (c : Collection) :
  no_account v c -> weight k v c = 0.
Proof. unfold no_account, weight. intros ->. reflexivity. Qed.

(** X18.  Register, credit, read the balance, on [src/server.js]: the wallet
    made at registration holds 0 points and 0 rupees.  A first transaction
    under the id of the new user with points and rupees that are both not
    zero is answered with status 200, and the balance is then that
    transaction; with zero points or zero rupees it is answered with
    status 400 and the balance stays 0 points and 0 rupees.  The points
    and the rupees are integers within 2^53 in magnitude. *)
Theorem register_then_credit (env : Auth.Draw) (e p : string) (db : Auth.Database)
  (now : Z) (oid : nat) (points rupees : Z) :
  strings_declared userSchema -> e <> "" -> p <> "" ->
  users_with e (Auth.users db) = [] ->
  numeric_ledger (Auth.wallets db) ->
  no_account (Auth.ObjectId_string (Auth.user_oid env)) (Auth.wallets db) ->
  in_exact_range points -> in_exact_range rupees ->
  let id := Auth.ObjectId_string (Auth.user_oid env) in
  let db' := snd (Auth.register StringToNumber userSchema bcrypt_hash env
                    (credentials e p) db) in
  let served :=
    ServerJs.wallet_add StringToNumber now oid
      {| userId := Some (JStr id); points := Some (JNum points);
         rupees := Some (JNum rupees); note := None |}
      (Auth.wallets db') in
  ServerJs.wallet_balance StringToNumber id (Auth.wallets db')
  = balance (VNum 0) (VNum 0)
  /\ (points <> 0 -> rupees <> 0 ->
      status_of (fst served) = 200%nat
      /\ ServerJs.wallet_balance StringToNumber id (snd served)
         = balance (VNum points) (VNum rupees))
  /\ (points = 0 \/ rupees = 0 ->
      status_of (fst served) = 400%nat
      /\ ServerJs.wallet_balance StringToNumber id (snd served)
         = balance (VNum 0) (VNum 0)).
Proof.
  intros S He Hp Hn N A Xp Xr id db' served.
  assert (W : Auth.wallets db'
              = (Auth.wallets db
                 ++ [empty_wallet (Auth.wallet_oid env) (Auth.user_oid env)
                       (Auth.wallet_now env)])%list).
  { unfold db'. rewrite (register_new StringToNumber userSchema bcrypt_hash env e p db S He Hp Hn).
    reflexivity. }
  assert (N' : numeric_ledger (Auth.wallets db')).
  { rewrite W. apply numeric_ledger_app. split; [exact N | reflexivity]. }
  assert (T : total "points" id (Auth.wallets db') = 0
              /\ total "rupees" id (Auth.wallets db') = 0).
  { rewrite W, !total_app, !(total_no_account _ id _ A).
    destruct (total_empty_wallet id (Auth.wallet_oid env) (Auth.user_oid env)
                (Auth.wallet_now env)) as [-> ->].
    split; reflexivity. }
  destruct T as [Tp Tr].
  assert (G : weight "points" id (Auth.wallets db') = 0
              /\ weight "rupees" id (Auth.wallets db') = 0).
  { rewrite W, !weight_app, !(weight_no_account _ id _ A).
    destruct (weight_empty_wallet id (Auth.wallet_oid env) (Auth.user_oid env)
                (Auth.wallet_now env)) as [-> ->].
    split; reflexivity. }
  destruct G as [Gp Gr].
  assert (B : ServerJs.wallet_balance StringToNumber id (Auth.wallets db')
              = balance (VNum 0) (VNum 0)).
  { rewrite (serverjs_balance_totals StringToNumber id _ N'), Tp, Tr;
      [reflexivity | rewrite Gp | rewrite Gr]; unfold in_exact_range; simpl; lia. }
  assert (I : truthy (VStr id) = true) by apply truthy_nonempty, number_to_string_nonempty.
  split; [exact B | ]. split.
  - intros Hpts Hrup.
    set (ev := mkEvent now oid id points rupees).
    assert (P : Forall passes [ev]).
    { constructor; [ | constructor]. unfold passes, ev. cbn.
      split; [apply number_to_string_nonempty | split; assumption]. }
    split.
    + unfold served, ServerJs.wallet_add. cbn [userId Shared.points Shared.rupees field of_json].
      rewrite I, (truthy_nonzero points Hpts), (truthy_nonzero rupees Hrup).
      reflexivity.
    + change (snd served) with (serve StringToNumber [ev] (Auth.wallets db')).
      assert (X : sums_exactly id [ev] (Auth.wallets db')).
      { unfold sums_exactly, spread, ev. cbn [fold_right ev_user ev_points ev_rupees].
        rewrite Gp, Gr, String.eqb_refl.
        unfold in_exact_range in *. split; lia. }
      rewrite (served_balance StringToNumber id [ev] _ N' P X).
      rewrite Tp, Tr. unfold delta, ev. cbn [fold_right ev_user ev_points ev_rupees].
      rewrite String.eqb_refl. f_equal; f_equal; lia.
  - intros Z0.
    assert (R : served = (missing_fields, Auth.wallets db')).
    { unfold served, ServerJs.wallet_add. cbn [userId Shared.points Shared.rupees field of_json].
      destruct Z0 as [-> | ->]; cbn [truthy Z.eqb negb];
        rewrite ?orb_true_r; reflexivity. }
    rewrite R. split; [reflexivity | exact B].
Qed.

End RegisteredWallet.

(** The schema and the bcrypt stand-ins of the examples meet what the
    statements ask. *)
Lemma plain_userSchema_strings : Events.strings_declared Events.plain_userSchema.
Proof.
  split; [reflexivity | ]. split; [reflexivity | ].
  intros k p [[= <- <-] | [[= <- <-] | []]] _; reflexivity.
Qed.

Lemma toy_compare_accepts (pw salt : string) :
  Events.toy_compare pw (Events.toy_hash pw salt) = true.
Proof. unfold Events.toy_compare, Events.toy_hash. apply String.eqb_refl. Qed.

Lemma registered_password_is_hashed_witness :
  Events.strings_declared Events.plain_userSchema /\ "asha@example.org" <> "" /\ "pw1" <> ""
  /\ Events.users_with "asha@example.org" [] = []
  /\ exists s,
       Auth.users
         (snd (Auth.register decimal Events.plain_userSchema Events.toy_hash
                 (Auth.mkDraw "salt" 0 1000 0 1001)
                 (Events.credentials "asha@example.org" "pw1")
                 (Auth.mkDatabase [] [])))
       = ([] ++ [s])%list
       /\ prop (st_paths s) "email" = VStr "asha@example.org"
       /\ prop (st_paths s) "password" = VStr (Events.toy_hash "pw1" "salt").
Proof.
  assert (He : "asha@example.org" <> "") by discriminate.
  assert (Hp : "pw1" <> "") by discriminate.
  assert (Hn : Events.users_with "asha@example.org" [] = []) by reflexivity.
  split; [exact plain_userSchema_strings | ]. split; [exact He | ].
  split; [exact Hp | ]. split; [exact Hn | ].
  exact (registered_password_is_hashed decimal Events.plain_userSchema Events.toy_hash
           (Auth.mkDraw "salt" 0 1000 0 1001) "asha@example.org" "pw1"
           (Auth.mkDatabase [] []) plain_userSchema_strings He Hp Hn).
Defined.

Lemma register_then_login_witness :
  Events.strings_declared Events.plain_userSchema
  /\ (forall pw salt, Events.toy_compare pw (Events.toy_hash pw salt) = true)
  /\ "asha@example.org" <> "" /\ "pw1" <> ""
  /\ Events.users_with "asha@example.org" [] = []
  /\ Auth.login decimal Events.plain_userSchema Events.toy_compare
       (Events.credentials "asha@example.org" "pw1")
       (Auth.users
          (snd (Auth.register decimal Events.plain_userSchema Events.toy_hash
                  (Auth.mkDraw "salt" 0 1000 0 1001)
                  (Events.credentials "asha@example.org" "pw1")
                  (Auth.mkDatabase [] []))))
     = Auth.Answer (Events.logged_in 0 "asha@example.org").
Proof.
  assert (He : "asha@example.org" <> "") by discriminate.
  assert (Hp : "pw1" <> "") by discriminate.
  assert (Hn : Events.users_with "asha@example.org" [] = []) by reflexivity.
  split; [exact plain_userSchema_strings | ]. split; [exact toy_compare_accepts | ].
  split; [exact He | ]. split; [exact Hp | ]. split; [exact Hn | ].
  exact (register_then_login decimal Events.plain_userSchema Events.toy_hash
           Events.toy_compare (Auth.mkDraw "salt" 0 1000 0 1001) "asha@example.org" "pw1"
           (Auth.mkDatabase [] []) plain_userSchema_strings toy_compare_accepts He Hp Hn).
Defined.

Lemma register_twice_is_refused_witness :
  Events.strings_declared Events.plain_userSchema
  /\ "asha@example.org" <> "" /\ "pw1" <> "" /\ "pw2" <> ""
  /\ Events.users_with "asha@example.org" [] = []
  /\ Auth.register decimal Events.plain_userSchema Events.toy_hash
       (Auth.mkDraw "salt" 1 2000 1 2001)
       (Events.credentials "asha@example.org" "pw2")
       (snd (Auth.register decimal Events.plain_userSchema Events.toy_hash
               (Auth.mkDraw "salt" 0 1000 0 1001)
               (Events.credentials "asha@example.org" "pw1")
               (Auth.mkDatabase [] [])))
     = (Auth.Answer Events.already_registered,
        snd (Auth.register decimal Events.plain_userSchema Events.toy_hash
               (Auth.mkDraw "salt" 0 1000 0 1001)
               (Events.credentials "asha@example.org" "pw1")
               (Auth.mkDatabase [] []))).
Proof.
  assert (He : "asha@example.org" <> "") by discriminate.
  assert (Hp : "pw1" <> "") by discriminate.
  assert (Hp' : "pw2" <> "") by discriminate.
  assert (Hn : Events.users_with "asha@example.org" [] = []) by reflexivity.
  split; [exact plain_userSchema_strings | ]. split; [exact He | ].
  split; [exact Hp | ]. split; [exact Hp' | ]. split; [exact Hn | ].
  exact (register_twice_is_refused decimal Events.plain_userSchema Events.toy_hash
           (Auth.mkDraw "salt" 0 1000 0 1001) (Auth.mkDraw "salt" 1 2000 1 2001)
           "asha@example.org" "pw1" "pw2" (Auth.mkDatabase [] [])
           plain_userSchema_strings He Hp Hp' Hn).
Defined.

Lemma register_then_credit_witness :
  Events.strings_declared Events.plain_userSchema
  /\ "asha@example.org" <> "" /\ "pw1" <> ""
  /\ Events.users_with "asha@example.org" [] = []
  /\ Events.numeric_ledger []
  /\ no_account (Auth.ObjectId_string 0) []
  /\ in_exact_range 100 /\ in_exact_range 50
  /\ ServerJs.wallet_balance decimal (Auth.ObjectId_string 0)
       (snd (ServerJs.wallet_add decimal 3000 1
               {| userId := Some (JStr (Auth.ObjectId_string 0));
                  points := Some (JNum 100); rupees := Some (JNum 50); note := None |}
               (Auth.wallets
                  (snd (Auth.register decimal Events.plain_userSchema Events.toy_hash
                          (Auth.mkDraw "salt" 0 1000 0 1001)
                          (Events.credentials "asha@example.org" "pw1")
                          (Auth.mkDatabase [] []))))))
     = balance (VNum 100) (VNum 50).
Proof.
  assert (He : "asha@example.org" <> "") by discriminate.
  assert (Hp : "pw1" <> "") by discriminate.
  assert (Hn : Events.users_with "asha@example.org" [] = []) by reflexivity.
  assert (N : Events.numeric_ledger []) by reflexivity.
  assert (A : no_account (Auth.ObjectId_string 0) []) by reflexivity.
  assert (H1 : in_exact_range 100) by (unfold in_exact_range; simpl; lia).
  assert (H2 : in_exact_range 50) by (unfold in_exact_range; simpl; lia).
  assert (Z1 : 100 <> 0) by discriminate.
  assert (Z2 : 50 <> 0) by discriminate.
  split; [exact plain_userSchema_strings | ]. split; [exact He | ]. split; [exact Hp | ].
  split; [exact Hn | ]. split; [exact N | ]. split; [exact A | ].
  split; [exact H1 | ]. split; [exact H2 | ].
  exact (proj2 (proj1 (proj2 (register_then_credit decimal Events.plain_userSchema
                                Events.toy_hash
                                (Auth.mkDraw "salt" 0 1000 0 1001) "asha@example.org" "pw1"
                                (Auth.mkDatabase [] []) 3000 1 100 50
                                plain_userSchema_strings He Hp Hn N A H1 H2)) Z1 Z2)).
Defined.
